(** * Verification of the normalisation and quality-scoring services of
    stock-api: [services/quality_stocks_service.py],
    [services/trendlyne_stocks_service.py] and
    [services/trendlyne_quality_service.py].

    Modelling conventions.
    - A Python [float] is [flt]: a finite value is an exact rational, and the
      two infinities and NaN are kept apart, with Python's (IEEE) comparison
      rules.  Rounding of finite results to binary64 is not modelled.
    - A Python [int] is [Z]; [Optional[...]] is [option].
    - A Python [str] is a Stdlib [string] (one byte per character).
    - A Python [dict] is an association list with [dict] semantics: assigning
      an existing key replaces its value in place, a new key is appended, so
      iteration order is insertion order.
    - An exception escaping a function is the [Raise] case of [exn]. *)

From Stdlib Require Import String Ascii List Bool ZArith QArith Qabs Qround Lia Lqa.
From Stdlib Require Import Sorting.Permutation Sorting.Sorted.
Import ListNotations.
Open Scope string_scope.

(** ** Exceptions *)

Inductive exn (A : Type) : Type :=
| Ok (a : A)
| Raise.
Arguments Ok {A} a.
Arguments Raise {A}.

Definition exn_bind {A B} (m : exn A) (k : A -> exn B) : exn B :=
  match m with Ok a => k a | Raise => Raise end.

Notation "x <- m ;; k" := (exn_bind m (fun x => k))
  (at level 61, m at next level, right associativity).

(** ** Python floats *)

Inductive flt : Type :=
| Fin (q : Q)
| Inf (neg : bool)
| NaN.

Definition fQ (q : Q) : flt := Fin q.
Definition fZ (z : Z) : flt := Fin (inject_Z z).

Definition Qlt_bool (x y : Q) : bool := negb (Qle_bool y x).

(** [a < b] on floats: false whenever NaN is involved. *)
Definition flt_lt (a b : flt) : bool :=
  match a, b with
  | Fin x, Fin y => Qlt_bool x y
  | Inf true, Fin _ | Inf true, Inf false => true
  | Fin _, Inf false => true
  | _, _ => false
  end.

(** [a == b] on floats. *)
Definition flt_eqb (a b : flt) : bool :=
  match a, b with
  | Fin x, Fin y => Qeq_bool x y
  | Inf x, Inf y => Bool.eqb x y
  | _, _ => false
  end.

Definition flt_le (a b : flt) : bool := flt_lt a b || flt_eqb a b.
Definition flt_gt (a b : flt) : bool := flt_lt b a.
Definition flt_ge (a b : flt) : bool := flt_le b a.

Definition flt_neg (a : flt) : flt :=
  match a with
  | Fin x => Fin (- x)
  | Inf b => Inf (negb b)
  | NaN => NaN
  end.

Definition flt_add (a b : flt) : flt :=
  match a, b with
  | Fin x, Fin y => Fin (x + y)
  | Inf s, Fin _ | Fin _, Inf s => Inf s
  | Inf s, Inf t => if Bool.eqb s t then Inf s else NaN
  | _, _ => NaN
  end.

Definition flt_sub (a b : flt) : flt := flt_add a (flt_neg b).

Definition Qsign_neg (q : Q) : bool := Qlt_bool q 0.

Definition flt_mul (a b : flt) : flt :=
  match a, b with
  | Fin x, Fin y => Fin (x * y)
  | Inf s, Fin y | Fin y, Inf s =>
      if Qeq_bool y 0 then NaN else Inf (xorb s (Qsign_neg y))
  | Inf s, Inf t => Inf (xorb s t)
  | _, _ => NaN
  end.

(** [a / b].  Every division of the modelled code has a divisor the code
    has already checked to be non-zero or NaN, so the [ZeroDivisionError]
    branch of Python is never reached; it is NaN here to keep the function
    total. *)
Definition flt_div (a b : flt) : flt :=
  match a, b with
  | Fin x, Fin y => if Qeq_bool y 0 then NaN else Fin (x / y)
  | Inf s, Fin y => if Qeq_bool y 0 then NaN else Inf (xorb s (Qsign_neg y))
  | Fin _, Inf _ => Fin 0
  | _, _ => NaN
  end.

Definition flt_abs (a : flt) : flt :=
  match a with
  | Fin x => Fin (Qabs x)
  | Inf _ => Inf false
  | NaN => NaN
  end.

(** Python's [max(a, b)]: the first argument unless the second is larger. *)
Definition py_max (a b : flt) : flt := if flt_gt b a then b else a.

(** Python truthiness of an [Optional[float]] field: [None] and [0.0] are
    false. *)
Definition truthy_f (o : option flt) : bool :=
  match o with
  | None => false
  | Some x => negb (flt_eqb x (Fin 0))
  end.

Definition truthy_z (o : option Z) : bool :=
  match o with
  | None => false
  | Some z => negb (Z.eqb z 0)
  end.

(** ** Strings *)

Definition py_whitespace (c : ascii) : bool :=
  let n := nat_of_ascii c in
  (Nat.eqb n 32) || ((9 <=? n)%nat && (n <=? 13)%nat)
  || ((28 <=? n)%nat && (n <=? 31)%nat).

Fixpoint lstrip_with (p : ascii -> bool) (s : string) : string :=
  match s with
  | EmptyString => EmptyString
  | String c r => if p c then lstrip_with p r else s
  end.

Definition rstrip_with (p : ascii -> bool) (s : string) : string :=
  string_of_list_ascii
    (rev (list_ascii_of_string (lstrip_with p
      (string_of_list_ascii (rev (list_ascii_of_string s)))))).

(** [s.strip()] and [s.strip(chars)]. *)
Definition py_strip (s : string) : string :=
  rstrip_with py_whitespace (lstrip_with py_whitespace s).

Definition strip_char (ch : ascii) (s : string) : string :=
  let p := fun c => Ascii.eqb c ch in
  rstrip_with p (lstrip_with p s).

(** [s.replace(',', '')]. *)
Fixpoint remove_commas (s : string) : string :=
  match s with
  | EmptyString => EmptyString
  | String c r =>
      if Ascii.eqb c "," then remove_commas r else String c (remove_commas r)
  end.

Definition lower_ascii (c : ascii) : ascii :=
  let n := nat_of_ascii c in
  if ((65 <=? n)%nat && (n <=? 90)%nat) then ascii_of_nat (n + 32) else c.

Definition upper_ascii (c : ascii) : ascii :=
  let n := nat_of_ascii c in
  if ((97 <=? n)%nat && (n <=? 122)%nat) then ascii_of_nat (n - 32) else c.

Fixpoint map_string (f : ascii -> ascii) (s : string) : string :=
  match s with
  | EmptyString => EmptyString
  | String c r => String (f c) (map_string f r)
  end.

(** [s.lower()] and [s.upper()]. *)
Definition py_lower (s : string) : string := map_string lower_ascii s.
Definition py_upper (s : string) : string := map_string upper_ascii s.

(** ** Python's [float(str)] *)

Definition digit_val (c : ascii) : option Z :=
  let n := nat_of_ascii c in
  if ((48 <=? n)%nat && (n <=? 57)%nat) then Some (Z.of_nat (n - 48)) else None.

(** The digits after a first digit: underscores are allowed only between
    two digits.  Returns the value, the number of digits and the rest. *)
Fixpoint digits_aux (acc : Z) (nd : nat) (l : list ascii)
  : Z * nat * list ascii :=
  match l with
  | [] => (acc, nd, [])
  | c :: r =>
      match digit_val c with
      | Some d => digits_aux (10 * acc + d)%Z (S nd) r
      | None =>
          if Ascii.eqb c "_" then
            match r with
            | c2 :: r2 =>
                match digit_val c2 with
                | Some d2 => digits_aux (10 * acc + d2)%Z (S nd) r2
                | None => (acc, nd, l)
                end
            | [] => (acc, nd, l)
            end
          else (acc, nd, l)
      end
  end.

(** A non-empty run of digits ([digitpart] of Python's float grammar). *)
Definition digitpart (l : list ascii) : option (Z * nat * list ascii) :=
  match l with
  | c :: r =>
      match digit_val c with
      | Some d => Some (digits_aux d 1 r)
      | None => None
      end
  | [] => None
  end.

Definition pow10 (n : nat) : Q := inject_Z (10 ^ Z.of_nat n).

(** The mantissa: [digitpart ['.' [digitpart]] | '.' digitpart]. *)
Definition mantissa (l : list ascii) : option (Q * list ascii) :=
  match digitpart l with
  | Some (v1, _, rest) =>
      match rest with
      | c :: rest' =>
          if Ascii.eqb c "." then
            match digitpart rest' with
            | Some (v2, n2, rest2) => Some (inject_Z v1 + inject_Z v2 / pow10 n2, rest2)
            | None => Some (inject_Z v1, rest')
            end
          else Some (inject_Z v1, rest)
      | [] => Some (inject_Z v1, [])
      end
  | None =>
      match l with
      | c :: rest' =>
          if Ascii.eqb c "." then
            match digitpart rest' with
            | Some (v2, n2, rest2) => Some (inject_Z v2 / pow10 n2, rest2)
            | None => None
            end
          else None
      | [] => None
      end
  end.

Definition sign_of (l : list ascii) : bool * list ascii :=
  match l with
  | c :: r =>
      if Ascii.eqb c "-" then (true, r)
      else if Ascii.eqb c "+" then (false, r)
      else (false, l)
  | [] => (false, l)
  end.

(** The exponent: [('e' | 'E') [sign] digitpart], or nothing. *)
Definition exponent (l : list ascii) : option (Z * list ascii) :=
  match l with
  | c :: r =>
      if Ascii.eqb c "e" || Ascii.eqb c "E" then
        let '(neg, r') := sign_of r in
        match digitpart r' with
        | Some (e, _, rest) => Some ((if neg then - e else e)%Z, rest)
        | None => None
        end
      else Some (0%Z, l)
  | [] => Some (0%Z, [])
  end.

Definition scale10 (m : Q) (e : Z) : Q :=
  if (e <? 0)%Z then m / inject_Z (10 ^ (- e))%Z else m * inject_Z (10 ^ e)%Z.

(** Finite values whose magnitude reaches [2^1024 - 2^970] overflow to an
    infinity. *)
Definition overflow_bound : Q := inject_Z (2 ^ 1024 - 2 ^ 970)%Z.

Definition finite_or_inf (neg : bool) (q : Q) : flt :=
  if Qle_bool overflow_bound q then Inf neg
  else Fin (if neg then - q else q).

(** [float(s)] for a string [s]: [None] is the [ValueError]. *)
Definition py_float (s : string) : option flt :=
  let body := list_ascii_of_string (py_strip s) in
  let '(neg, r) := sign_of body in
  let word := py_lower (string_of_list_ascii r) in
  if String.eqb word "inf" || String.eqb word "infinity" then Some (Inf neg)
  else if String.eqb word "nan" then Some NaN
  else
    match mantissa r with
    | Some (m, r1) =>
        match exponent r1 with
        | Some (e, []) => Some (finite_or_inf neg (scale10 m e))
        | _ => None
        end
    | None => None
    end.

(** ** Values read from a CSV row *)

(** What [row.get(key, 0)] can return: the cell's string, [None] for a
    missing trailing cell, or the integer default. *)
Inductive pyval : Type :=
| PyNone
| PyStr (s : string)
| PyInt (z : Z).

(** [QualityStocksService._safe_float]. *)
Definition qs_safe_float (value : pyval) (default : flt) : flt :=
  match value with
  | PyNone => default
  | PyStr s =>
      if String.eqb s "" || String.eqb s "-" then default
      else match py_float (remove_commas s) with
           | Some f => f
           | None => default
           end
  | PyInt z => fZ z
  end.

(** [TrendlyneQualityService._safe_float]: the default may be [None]. *)
Definition tq_safe_float (value : pyval) (default : option flt) : option flt :=
  match value with
  | PyNone => default
  | PyStr s =>
      if String.eqb s "" || String.eqb s "-" then default
      else match py_float (py_strip (remove_commas s)) with
           | Some f => Some f
           | None => default
           end
  | PyInt z => Some (fZ z)
  end.

(** Comparisons of a float field with a literal, as the code writes them. *)
Definition gtc (x : flt) (q : Q) : bool := flt_gt x (Fin q).
Definition ltc (x : flt) (q : Q) : bool := flt_lt x (Fin q).
Definition gec (x : flt) (q : Q) : bool := flt_ge x (Fin q).
Definition lec (x : flt) (q : Q) : bool := flt_le x (Fin q).
Definition eqc (x : flt) (q : Q) : bool := flt_eqb x (Fin q).

(** Python's [min(a, b)] on numbers: the first argument unless the second is
    smaller. *)
Definition py_min_Q (a b : Q) : Q := if Qlt_bool b a then b else a.

(** [round(x, 2)] on a finite value: round half to even at two decimals. *)
Definition Qround_half_even (q : Q) : Z :=
  let f := Qfloor q in
  let frac := q - inject_Z f in
  if Qlt_bool frac (1 # 2) then f
  else if Qlt_bool (1 # 2) frac then (f + 1)%Z
  else if Z.even f then f else (f + 1)%Z.

Definition round2 (q : Q) : Q := inject_Z (Qround_half_even (q * 100)) / 100.

(** ** Python's [list.sort(key=..., reverse=True)] *)

(** A stable sort in descending order of a key compared with [<]: an
    element goes before the first element whose key is smaller than its
    own, so equal keys keep their original order. *)
Fixpoint insert_desc {A} (lt : A -> A -> bool) (x : A) (l : list A) : list A :=
  match l with
  | [] => [x]
  | y :: r => if lt y x then x :: y :: r else y :: insert_desc lt x r
  end.

Definition sort_desc {A} (lt : A -> A -> bool) (l : list A) : list A :=
  fold_left (fun acc x => insert_desc lt x acc) l [].

(** ** Python dicts and CSV files *)

Definition dict (V : Type) : Type := list (string * V).

Fixpoint dict_get {V} (k : string) (d : dict V) : option V :=
  match d with
  | [] => None
  | (k', v) :: r => if String.eqb k k' then Some v else dict_get k r
  end.

(** [d[k] = v]: in place when [k] is present, appended otherwise. *)
Fixpoint dict_set {V} (k : string) (v : V) (d : dict V) : dict V :=
  match d with
  | [] => [(k, v)]
  | (k', v') :: r => if String.eqb k k' then (k, v) :: r else (k', v') :: dict_set k v r
  end.

Definition dict_mem {V} (k : string) (d : dict V) : bool :=
  match dict_get k d with Some _ => true | None => false end.

(** [d.update(e)]. *)
Definition dict_update {V} (d e : dict V) : dict V :=
  fold_left (fun acc kv => dict_set (fst kv) (snd kv) acc) e d.

(** A source file as the CSV module reads it: its header and its records
    (each a list of cells).  [None]: the file cannot be opened or decoded. *)
Record CsvFile : Type := {
  file_name : string;
  contents : option (list string * list (list string))
}.

(** A row of [csv.DictReader], before it becomes a dict: the header names
    paired with the cells ([None], the [restval], for a missing trailing
    cell), and the surplus cells that [DictReader] stores under the key
    [None] (its [restkey]). *)
Record RawRow : Type := {
  row_pairs : list (string * option string);
  row_extra : list string
}.

Fixpoint zip_row (fields cells : list string) : list (string * option string) * list string :=
  match fields, cells with
  | f :: fs, c :: cs => let '(ps, ex) := zip_row fs cs in ((f, Some c) :: ps, ex)
  | f :: fs, [] => let '(ps, ex) := zip_row fs [] in ((f, None) :: ps, ex)
  | [], cs => ([], cs)
  end.

(** The rows [DictReader] yields: blank records are skipped. *)
Definition reader_rows (fields : list string) (records : list (list string)) : list RawRow :=
  map (fun cells => let '(ps, ex) := zip_row fields cells in
                    {| row_pairs := ps; row_extra := ex |})
      (filter (fun cells => match cells with [] => false | _ => true end) records).

(** The row as a dict over its string keys. *)
Definition row_dict (r : RawRow) : dict (option string) :=
  fold_left (fun d kv => dict_set (fst kv) (snd kv) d) (row_pairs r) [].

(** ** [services/quality_stocks_service.py] *)

Module QS.

(** The fields of the [QualityStock] dataclass that are read from a CSV row.
    The pass-through float fields that no modelled function reads
    ([eps_qtr_yoy_growth], [npm_ann], [sector_roce], ...) are left out:
    they are computed with [_safe_float], which never raises, and nothing
    else depends on them.  The SWOT counts are kept: they go through
    [_safe_int], which can raise. *)
Record Metrics : Type := {
  market_cap : flt;
  roe : flt;
  roce : flt;
  debt_to_equity : flt;
  interest_coverage : flt;
  current_ratio : flt;
  promoter_holding : flt;
  promoter_holding_change_1y : flt;
  eps_ttm_growth : flt;
  operating_rev_growth_ttm : flt;
  net_profit_ann : flt;
  net_profit_ann_1y_ago : flt;
  opm_ann : flt;
  opm_ann_1y_ago : flt;
  pe_ttm : option flt;
  industry_pe_ttm : option flt;
  peg_ttm : option flt;
  price_to_book : option flt;
  ev_per_ebitda_ann : option flt;
  durability_score : option Z;
  valuation_score : option Z;
  piotroski_score : option Z;
  altman_zscore : option flt;
  tobin_q_ratio : option flt;
  graham_number : option flt;
  basic_eps_qoq_growth : flt;
  basic_eps_qtr : flt;
  basic_eps_1q_ago : flt;
  basic_eps_2q_ago : flt;
  net_profit_qtr : flt;
  net_profit_1q_ago : flt;
  net_profit_2q_ago : flt;
  opm_qtr : flt;
  opm_1q_ago : flt;
  promoter_holding_change_qoq : flt;
  sector_pe_ttm : option flt;
  industry_pbv_ttm : option flt;
  roa_ann : flt;
  roa_ann_1y_ago : flt;
  roe_1y_ago : flt;
  roe_2y_ago : flt;
  roe_3y_ago : flt;
  roce_3y_avg : flt;
  roce_5y_avg : flt;
  cash_flow_return_on_assets : flt;
  cash_flow_return_on_assets_1y_ago : flt;
  cash_eps_1y_growth : flt;
  working_capital_turnover : flt;
  price_to_sales_ann : option flt;
  price_to_sales_ttm : option flt;
  price_to_cashflow : option flt;
  operating_profit_ttm : flt;
  operating_profit_ttm_1y_ago : flt;
  ebitda_ann_margin : flt;
  ebitda_qtr_yoy_growth : flt;
  promoter_pledge_percentage : flt;
  gross_npa_ratio : option flt;
  capital_adequacy_ratio : option flt;
  industry_score : option Z;
  sector_score : option Z;
  tl_checklist_positive_score : option Z;
  tl_checklist_negative_score : option Z;
  swot_strengths : option Z;
  swot_weakness : option Z;
  swot_opportunities : option Z;
  swot_threats : option Z
}.

(** The "Calculated Insights" fields of the dataclass. *)
Record Insights : Type := {
  consecutive_positive_quarters : Z;
  profit_growth_consistency : string;
  margin_stability : string;
  promoter_trend : string;
  cash_flow_quality : string;
  roe_trend : string;
  roce_consistency : string
}.

Record QualityStock : Type := {
  stock_name : string;
  nse_code : string;
  isin : string;
  metrics : Metrics;
  quality_score : Q;
  quality_tier : string;
  insights : Insights
}.

Definition set_score (s : QualityStock) (q : Q) : QualityStock :=
  {| stock_name := stock_name s; nse_code := nse_code s; isin := isin s;
     metrics := metrics s; quality_score := q; quality_tier := quality_tier s;
     insights := insights s |}.

Definition set_tier (s : QualityStock) (t : string) : QualityStock :=
  {| stock_name := stock_name s; nse_code := nse_code s; isin := isin s;
     metrics := metrics s; quality_score := quality_score s; quality_tier := t;
     insights := insights s |}.

(** *** Derived labels *)

(** One step of the loop of [_count_consecutive_positive_quarters]. *)
Fixpoint count_streak (quarters : list (flt * flt)) : Z :=
  match quarters with
  | [] => 0
  | (current, previous) :: rest =>
      if gtc current 0 && gtc previous 0 && flt_gt current previous then
        1 + count_streak rest
      else if gtc current 0 && lec previous 0 then 1 + count_streak rest
      else 0
  end.

Definition _count_consecutive_positive_quarters (m : Metrics) : Z :=
  count_streak [(basic_eps_qtr m, basic_eps_1q_ago m);
                (basic_eps_1q_ago m, basic_eps_2q_ago m)].

Definition pos_count (x : flt) : Z := if gtc x 0 then 1 else 0.

Definition _assess_profit_growth_consistency (m : Metrics) : string :=
  if lec (net_profit_ann m) 0 || lec (net_profit_ann_1y_ago m) 0 then "Negative"
  else
    let profit_growth_yoy :=
      flt_mul (flt_div (flt_sub (net_profit_ann m) (net_profit_ann_1y_ago m))
                       (flt_abs (net_profit_ann_1y_ago m))) (Fin 100) in
    let quarters_positive :=
      (pos_count (net_profit_qtr m) + pos_count (net_profit_1q_ago m)
       + pos_count (net_profit_2q_ago m))%Z in
    if gtc profit_growth_yoy 15 && (2 <=? quarters_positive)%Z then "Very Consistent"
    else if gtc profit_growth_yoy 10 && (2 <=? quarters_positive)%Z then "Consistent"
    else if gtc profit_growth_yoy 0 then "Moderate"
    else "Inconsistent".

Definition _assess_margin_stability (m : Metrics) : string :=
  if lec (opm_ann m) 0 then "Negative"
  else if flt_gt (opm_ann m) (opm_ann_1y_ago m) then
    if flt_gt (opm_qtr m) (opm_1q_ago m) then "Expanding"
    else "Expanding (Volatile)"
  else
    let margin_change :=
      flt_div (flt_abs (flt_sub (opm_ann m) (opm_ann_1y_ago m)))
              (py_max (opm_ann_1y_ago m) (Fin 1)) in
    if ltc margin_change 0.05 then "Stable"
    else if ltc margin_change 0.15 then "Moderately Stable"
    else "Volatile".

Definition _assess_promoter_trend (m : Metrics) : string :=
  if gtc (promoter_holding_change_1y m) 1 then
    if gtc (promoter_holding_change_qoq m) 0 then "Rising (Strong)" else "Rising"
  else if gtc (promoter_holding_change_1y m) 0 then "Rising (Moderate)"
  else if ltc (flt_abs (promoter_holding_change_1y m)) 1 then "Stable"
  else "Declining".

Definition _assess_cash_flow_quality (m : Metrics) : string :=
  let cur := cash_flow_return_on_assets m in
  let prev := cash_flow_return_on_assets_1y_ago m in
  if gtc cur 0 && gtc prev 0 then
    if flt_gt cur prev then "Improving"
    else if ltc (flt_abs (flt_sub cur prev)) 2 then "Stable"
    else "Declining"
  else if gtc cur 0 then "Positive"
  else "Negative".

Definition _assess_roe_trend (m : Metrics) : string :=
  if flt_gt (roe m) (roe_1y_ago m) && flt_gt (roe_1y_ago m) (roe_2y_ago m)
     && flt_gt (roe_2y_ago m) (roe_3y_ago m) then "Consistently Rising"
  else if flt_gt (roe m) (roe_1y_ago m) then "Rising"
  else if ltc (flt_abs (flt_sub (roe m) (roe_1y_ago m))) 2 then "Stable"
  else "Declining".

Definition _assess_roce_consistency (m : Metrics) : string :=
  if gtc (roce_3y_avg m) 0 && gtc (roce_5y_avg m) 0 then
    let diff_3y := flt_abs (flt_sub (roce m) (roce_3y_avg m)) in
    let diff_5y := flt_abs (flt_sub (roce m) (roce_5y_avg m)) in
    if ltc diff_3y 3 && ltc diff_5y 5 then "Very Consistent"
    else if ltc diff_3y 5 then "Consistent"
    else if flt_gt (roce m) (roce_3y_avg m) then "Improving"
    else "Volatile"
  else "Insufficient Data".

(** The insights computed by [load_stocks] right after building a stock. *)
Definition compute_insights (m : Metrics) : Insights :=
  {| cash_flow_quality := _assess_cash_flow_quality m;
     roe_trend := _assess_roe_trend m;
     roce_consistency := _assess_roce_consistency m;
     consecutive_positive_quarters := _count_consecutive_positive_quarters m;
     profit_growth_consistency := _assess_profit_growth_consistency m;
     margin_stability := _assess_margin_stability m;
     promoter_trend := _assess_promoter_trend m |}.

(** *** [calculate_quality_score] *)

(** The value of a truthy [Optional[float]] field, for the branches guarded
    by its truthiness. *)
Definition val (o : option flt) : flt :=
  match o with Some x => x | None => Fin 0 end.

Definition valz (o : option Z) : Z :=
  match o with Some x => x | None => 0%Z end.

Definition in_range (lo : Q) (x : flt) (hi : Q) : bool := gec x lo && lec x hi.

(** Each sub-rule gives the points it earns and what it adds to
    [max_score], in the order of the source. *)
Definition rule_roe (m : Metrics) : Q :=
  if gtc (roe m) 20 then 20 else if gtc (roe m) 15 then 15
  else if gtc (roe m) 12 then 10 else if gtc (roe m) 8 then 5 else 0.

Definition rule_roce (m : Metrics) : Q :=
  if gtc (roce m) 25 then 20 else if gtc (roce m) 20 then 15
  else if gtc (roce m) 15 then 10 else if gtc (roce m) 10 then 5 else 0.

Definition rule_debt (m : Metrics) : Q :=
  let de := debt_to_equity m in
  if eqc de 0 then 15 else if ltc de 0.3 then 12 else if ltc de 0.5 then 10
  else if ltc de 1.0 then 7 else if ltc de 1.5 then 3 else 0.

Definition rule_interest (m : Metrics) : Q :=
  let ic := interest_coverage m in
  if gtc ic 10 then 10 else if gtc ic 5 then 8 else if gtc ic 3 then 5
  else if gtc ic 1.5 then 2 else 0.

Definition rule_current (m : Metrics) : Q :=
  let cr := current_ratio m in
  if gtc cr 2.0 then 10 else if gtc cr 1.5 then 8 else if gtc cr 1.2 then 5
  else if gtc cr 1.0 then 2 else 0.

Definition rule_promoter (m : Metrics) : Q :=
  let ph := promoter_holding m in
  (if gtc ph 50 then 5 else if gtc ph 30 then 3 else if gtc ph 20 then 1 else 0)
  + (if gtc (promoter_holding_change_1y m) 0 then 2 else 0).

Definition rule_eps (m : Metrics) : Q :=
  let g := eps_ttm_growth m in
  if gtc g 20 then 10 else if gtc g 10 then 7 else if gtc g 5 then 4
  else if gtc g 0 then 2 else 0.

Definition rule_revenue (m : Metrics) : Q :=
  let g := operating_rev_growth_ttm m in
  if gtc g 20 then 10 else if gtc g 15 then 8 else if gtc g 10 then 5
  else if gtc g 5 then 2 else 0.

Definition rule_profit (m : Metrics) : Q :=
  if gtc (net_profit_ann m) 0 && gtc (net_profit_ann_1y_ago m) 0 then
    let g := flt_mul (flt_div (flt_sub (net_profit_ann m) (net_profit_ann_1y_ago m))
                              (flt_abs (net_profit_ann_1y_ago m))) (Fin 100) in
    if gtc g 20 then 8 else if gtc g 10 then 5 else if gtc g 0 then 2 else 0
  else 0.

Definition rule_opm (m : Metrics) : Q :=
  if flt_gt (opm_ann m) (opm_ann_1y_ago m) && gtc (opm_ann m) 15 then 5
  else if flt_gt (opm_ann m) (opm_ann_1y_ago m) then 3
  else if gtc (opm_ann m) 10 then 1 else 0.

Definition rule_peg (m : Metrics) : Q :=
  if truthy_f (peg_ttm m) && gtc (val (peg_ttm m)) 0 then
    let p := val (peg_ttm m) in
    if in_range 0.7 p 1.5 then 5 else if in_range 0.5 p 2.0 then 3
    else if ltc p 0.5 then 1 else 0
  else 0.

Definition rule_quarters (m : Metrics) (i : Insights) : Q :=
  if (2 <=? consecutive_positive_quarters i)%Z then 8
  else if (consecutive_positive_quarters i =? 1)%Z then 4
  else if gtc (basic_eps_qoq_growth m) 0 then 2 else 0.

Definition rule_pe (m : Metrics) : Q :=
  if truthy_f (pe_ttm m) && truthy_f (industry_pe_ttm m)
     && gtc (val (industry_pe_ttm m)) 0 then
    let pe_ratio := flt_div (val (pe_ttm m)) (val (industry_pe_ttm m)) in
    if ltc pe_ratio 0.9 then 5 else if lec pe_ratio 1.1 then 3
    else if lec pe_ratio 1.3 then 1 else 0
  else if truthy_f (sector_pe_ttm m) && gtc (val (sector_pe_ttm m)) 0 then
    if truthy_f (pe_ttm m) then
      let pe_ratio := flt_div (val (pe_ttm m)) (val (sector_pe_ttm m)) in
      if ltc pe_ratio 0.9 then 4 else if lec pe_ratio 1.1 then 2 else 0
    else 0
  else 0.

Definition rule_pb (m : Metrics) : Q :=
  if truthy_f (price_to_book m) then
    let pb := val (price_to_book m) in
    if ltc pb 1.0 then 5 else if ltc pb 2.0 then 3 else if ltc pb 3.0 then 1 else 0
  else if truthy_f (industry_pbv_ttm m) then
    if ltc (val (industry_pbv_ttm m)) 2.0 then 2 else 0
  else 0.

Definition rule_ev (m : Metrics) : Q :=
  if truthy_f (ev_per_ebitda_ann m) then
    let ev := val (ev_per_ebitda_ann m) in
    if ltc ev 8 then 5 else if ltc ev 12 then 3 else if ltc ev 15 then 1 else 0
  else 0.

Definition rule_promoter_trend (i : Insights) : Q :=
  let t := promoter_trend i in
  if String.eqb t "Rising (Strong)" || String.eqb t "Rising" then 3
  else if String.eqb t "Rising (Moderate)" then 2
  else if String.eqb t "Stable" then 1 else 0.

Definition rule_margin (i : Insights) : Q :=
  let t := margin_stability i in
  if String.eqb t "Expanding" then 3 else if String.eqb t "Stable" then 2
  else if String.eqb t "Moderately Stable" then 1 else 0.

Definition rule_consistency (i : Insights) : Q :=
  let t := profit_growth_consistency i in
  if String.eqb t "Very Consistent" then 4 else if String.eqb t "Consistent" then 3
  else if String.eqb t "Moderate" then 1 else 0.

(** [min(score / 2, 7)] for a truthy Trendlyne score. *)
Definition half_capped (o : option Z) : Q :=
  if truthy_z o then py_min_Q (inject_Z (valz o) / 2) 7 else 0.

Definition rule_trendlyne (m : Metrics) : Q :=
  0 + half_capped (durability_score m) + half_capped (valuation_score m).

Definition rule_piotroski (m : Metrics) : Q :=
  match piotroski_score m with
  | Some p => inject_Z (Z.min p 9)
  | None => 0
  end.

Definition rule_altman (m : Metrics) : Q :=
  if truthy_f (altman_zscore m) then
    let z := val (altman_zscore m) in
    if gtc z 3.0 then 6 else if gtc z 2.7 then 4 else if gtc z 1.8 then 2 else 0
  else 0.

Definition rule_tobin (m : Metrics) : Q :=
  if truthy_f (tobin_q_ratio m) then
    let t := val (tobin_q_ratio m) in
    if in_range 0.8 t 1.2 then 5
    else if gec t 0.6 && ltc t 0.8 then 4
    else if gtc t 1.2 && lec t 1.5 then 2
    else if gtc t 1.5 then 1 else 0
  else 0.

Definition rule_graham (m : Metrics) : Q :=
  if truthy_f (graham_number m) && gtc (market_cap m) 0 then
    let g := val (graham_number m) in
    if gtc g 0 then
      2 + (if flt_gt g (flt_mul (market_cap m) (Fin 0.5)) then 2 else 0)
    else 0
  else 0.

Definition rule_roa (m : Metrics) : Q :=
  let r := roa_ann m in
  (if gtc r 10 then 5 else if gtc r 7 then 4 else if gtc r 5 then 3
   else if gtc r 3 then 1 else 0)
  + (if flt_gt r (roa_ann_1y_ago m) && gtc r 5 then 1 else 0).

Definition rule_cash_flow (m : Metrics) (i : Insights) : Q :=
  let c := cash_flow_return_on_assets m in
  (if gtc c 10 then 5 else if gtc c 7 then 4 else if gtc c 5 then 3
   else if gtc c 0 then 1 else 0)
  + (if String.eqb (cash_flow_quality i) "Improving" then 1 else 0).

Definition rule_cash_eps (m : Metrics) : Q :=
  let g := cash_eps_1y_growth m in
  if gtc g 20 then 4 else if gtc g 10 then 3 else if gtc g 5 then 2
  else if gtc g 0 then 1 else 0.

Definition rule_working_capital (m : Metrics) : Q :=
  let w := working_capital_turnover m in
  if gtc w 10 then 3 else if gtc w 5 then 2 else if gtc w 2 then 1 else 0.

Definition rule_op_profit (m : Metrics) : Q :=
  if gtc (operating_profit_ttm m) 0 && gtc (operating_profit_ttm_1y_ago m) 0 then
    let g := flt_mul (flt_div (flt_sub (operating_profit_ttm m) (operating_profit_ttm_1y_ago m))
                              (flt_abs (operating_profit_ttm_1y_ago m))) (Fin 100) in
    if gtc g 20 then 4 else if gtc g 10 then 3 else if gtc g 5 then 2
    else if gtc g 0 then 1 else 0
  else 0.

Definition rule_ebitda (m : Metrics) : Q :=
  let e := ebitda_ann_margin m in
  (if gtc e 25 then 4 else if gtc e 20 then 3 else if gtc e 15 then 2
   else if gtc e 10 then 1 else 0)
  + (if gtc (ebitda_qtr_yoy_growth m) 15 then 1 else 0).

Definition rule_price_to_sales (m : Metrics) : Q :=
  if truthy_f (price_to_sales_ttm m) then
    let p := val (price_to_sales_ttm m) in
    if ltc p 1.0 then 3 else if ltc p 2.0 then 2 else if ltc p 3.0 then 1 else 0
  else if truthy_f (price_to_sales_ann m) then
    let p := val (price_to_sales_ann m) in
    if ltc p 1.0 then 3 else if ltc p 2.0 then 2 else 0
  else 0.

Definition rule_price_to_cashflow (m : Metrics) : Q :=
  if truthy_f (price_to_cashflow m) then
    let p := val (price_to_cashflow m) in
    if ltc p 10 then 3 else if ltc p 15 then 2 else if ltc p 20 then 1 else 0
  else 0.

Definition rule_roce_consistency (i : Insights) : Q :=
  let t := roce_consistency i in
  if String.eqb t "Very Consistent" then 3 else if String.eqb t "Consistent" then 2
  else if String.eqb t "Improving" then 1 else 0.

Definition rule_roe_trend (i : Insights) : Q :=
  let t := roe_trend i in
  if String.eqb t "Consistently Rising" then 2 else if String.eqb t "Rising" then 1 else 0.

Definition rule_pledge (m : Metrics) : Q :=
  let p := promoter_pledge_percentage m in
  if eqc p 0 then 2 else if ltc p 10 then 1 else 0.

(** [min(score / 20, 1.5)] for a truthy industry or sector score. *)
Definition twentieth_capped (o : option Z) : Q :=
  if truthy_z o then py_min_Q (inject_Z (valz o) / 20) 1.5 else 0.

Definition rule_relative (m : Metrics) : Q :=
  twentieth_capped (industry_score m) + twentieth_capped (sector_score m).

Definition rule_checklist (m : Metrics) : Q :=
  if truthy_z (tl_checklist_positive_score m) && truthy_z (tl_checklist_negative_score m) then
    let net_score := (valz (tl_checklist_positive_score m)
                      - valz (tl_checklist_negative_score m))%Z in
    if (10 <? net_score)%Z then 2 else if (5 <? net_score)%Z then 1 else 0
  else 0.

Definition rule_bank (m : Metrics) : Q :=
  (match gross_npa_ratio m with
   | Some n => if ltc n 1.0 then 2 else if ltc n 2.0 then 1 else 0
   | None => 0
   end)
  + (if truthy_f (capital_adequacy_ratio m) then
       if gtc (val (capital_adequacy_ratio m)) 15 then 1 else 0
     else 0).

(** The 37 sub-rules in order, as (earned points, maximum). *)
Definition rules (s : QualityStock) : list (Q * Q) :=
  let m := metrics s in
  let i := insights s in
  [ (rule_roe m, 20); (rule_roce m, 20); (rule_debt m, 15);
    (rule_interest m, 10); (rule_current m, 10); (rule_promoter m, 7);
    (rule_eps m, 10); (rule_revenue m, 10); (rule_profit m, 8);
    (rule_opm m, 5); (rule_peg m, 5); (rule_quarters m i, 8);
    (rule_pe m, 5); (rule_pb m, 5); (rule_ev m, 5);
    (rule_promoter_trend i, 3); (rule_margin i, 3); (rule_consistency i, 4);
    (rule_trendlyne m, 14); (rule_piotroski m, 9); (rule_altman m, 6);
    (rule_tobin m, 5); (rule_graham m, 4); (rule_roa m, 6);
    (rule_cash_flow m i, 6); (rule_cash_eps m, 4); (rule_working_capital m, 3);
    (rule_op_profit m, 4); (rule_ebitda m, 5); (rule_price_to_sales m, 3);
    (rule_price_to_cashflow m, 3); (rule_roce_consistency i, 3);
    (rule_roe_trend i, 2); (rule_pledge m, 2); (rule_relative m, 3);
    (rule_checklist m, 2); (rule_bank m, 3) ].

Definition earned (s : QualityStock) : Q :=
  fold_left (fun acc r => acc + fst r) (rules s) 0.

Definition max_score (s : QualityStock) : Q :=
  fold_left (fun acc r => acc + snd r) (rules s) 0.

Definition calculate_quality_score (s : QualityStock) : Q :=
  let normalized_score :=
    if Qlt_bool 0 (max_score s) then (earned s / max_score s) * 100 else 0 in
  round2 normalized_score.

(** *** Parsing a row: [load_stocks] *)

(** [int(float(x))] after a successful [float]: truncation toward zero; an
    infinity raises [OverflowError], which [_safe_int] does not catch; NaN
    raises [ValueError], which it does. *)
Definition qs_safe_int (value : pyval) (default : Z) : exn Z :=
  match value with
  | PyNone => Ok default
  | PyStr s =>
      if String.eqb s "" || String.eqb s "-" then Ok default
      else match py_float (remove_commas s) with
           | Some (Fin q) => Ok (Z.quot (Qnum q) (Zpos (Qden q)))
           | Some (Inf _) => Raise
           | Some NaN => Ok default
           | None => Ok default
           end
  | PyInt z => Ok z
  end.

Section Row.
Variable row : dict (option string).

(** [row.get(k, 0)]. *)
Definition get0 (k : string) : pyval :=
  match dict_get k row with
  | None => PyInt 0
  | Some None => PyNone
  | Some (Some v) => PyStr v
  end.

(** [row.get(k)], which is [None] for an absent key. *)
Definition get_opt (k : string) : option string :=
  match dict_get k row with
  | Some (Some v) => Some v
  | _ => None
  end.

(** Truthiness of [row.get(k)]. *)
Definition get_truthy (k : string) : bool :=
  match get_opt k with Some v => negb (String.eqb v "") | None => false end.

(** [self._safe_float(row.get(k, 0))]. *)
Definition sf (k : string) : flt := qs_safe_float (get0 k) (Fin 0).

(** [self._safe_float(row.get(k, 0)) if row.get(k) else None]. *)
Definition osf (k : string) : option flt := if get_truthy k then Some (sf k) else None.

(** [self._safe_int(row.get(k, 0)) if row.get(k) else None]. *)
Definition osi (k : string) : exn (option Z) :=
  if get_truthy k then (z <- qs_safe_int (get0 k) 0 ;; Ok (Some z)) else Ok None.

(** [row.get(k, '').strip()]: a [None] cell raises [AttributeError]. *)
Definition strip_get (k : string) : exn string :=
  match dict_get k row with
  | None => Ok ""
  | Some None => Raise
  | Some (Some v) => Ok (py_strip v)
  end.

(** [a or b] on two values of [row.get]. *)
Definition py_or (a b : option string) : option string :=
  match a with
  | Some v => if String.eqb v "" then b else a
  | None => b
  end.

Definition placeholders : list string := [""; "-"; "N/A"; "NA"; "None"].

(** The durability or valuation score of a row, from its three spellings. *)
Definition trendlyne_score (k1 k2 k3 : string) : exn (option Z) :=
  match py_or (py_or (get_opt k1) (get_opt k2)) (get_opt k3) with
  | Some raw =>
      if existsb (String.eqb (py_strip raw)) placeholders then Ok None
      else (z <- qs_safe_int (PyStr raw) 0 ;; Ok (Some z))
  | None => Ok None
  end.

Definition parse_row : exn QualityStock :=
  durability <- trendlyne_score "Durability Score" "Durability" "DurabilityScore" ;;
  valuation <- trendlyne_score "Valuation Score" "Valuation" "ValuationScore" ;;
  name <- strip_get "Stock" ;;
  nse <- strip_get "NSE Code" ;;
  isin_v <- strip_get "ISIN" ;;
  piotroski <- osi "Piotroski Score" ;;
  industry <- osi "Industry Score" ;;
  sector <- osi "Sector Score" ;;
  tl_pos <- osi "TL Checklist Positive Score" ;;
  tl_neg <- osi "TL Checklist Negative Score" ;;
  sw_s <- osi "SWOT Strengths" ;;
  sw_w <- osi "SWOT Weakness" ;;
  sw_o <- osi "SWOT Opportunities" ;;
  sw_t <- osi "SWOT Threats" ;;
  let m := {|
    market_cap := sf "Market Cap";
    roe := sf "ROE Ann  %";
    roce := sf "ROCE Ann  %";
    debt_to_equity := sf "Total Debt to Total Equity Ann ";
    interest_coverage := sf "Interest Coverage Ratio Ann ";
    current_ratio := sf "Current Ratio Ann ";
    promoter_holding := sf "Promoter holding latest %";
    promoter_holding_change_1y := sf "Promoter holding change 1Y %";
    eps_ttm_growth := sf "EPS TTM Growth %";
    operating_rev_growth_ttm := sf "Operating Rev  growth TTM %";
    net_profit_ann := sf "Net Profit Ann ";
    net_profit_ann_1y_ago := sf "Net Profit Ann  1Y Ago";
    opm_ann := sf "OPM Ann  %";
    opm_ann_1y_ago := sf "OPM Ann  1Y ago %";
    pe_ttm := None;
    industry_pe_ttm := osf "Industry PE TTM";
    peg_ttm := osf "PEG TTM";
    price_to_book := osf "Industry PBV TTM";
    ev_per_ebitda_ann := osf "EV Per EBITDA Ann ";
    durability_score := durability;
    valuation_score := valuation;
    piotroski_score := piotroski;
    altman_zscore := osf "Altman Zscore";
    tobin_q_ratio := osf "Tobin Q Ratio";
    graham_number := osf "Graham No ";
    basic_eps_qoq_growth := sf "Basic EPS QoQ Growth %";
    basic_eps_qtr := sf "Basic EPS Qtr";
    basic_eps_1q_ago := sf "Basic EPS 1Q Ago";
    basic_eps_2q_ago := sf "Basic EPS 2Q Ago";
    net_profit_qtr := sf "Net Profit Qtr";
    net_profit_1q_ago := sf "Net Profit 1Q Ago";
    net_profit_2q_ago := sf "Net Profit 2Q Ago";
    opm_qtr := sf "Operating Profit Margin Qtr %";
    opm_1q_ago := sf "OPM 1Q ago %";
    promoter_holding_change_qoq := sf "Promoter holding change QoQ %";
    sector_pe_ttm := osf "Sector PE TTM";
    industry_pbv_ttm := osf "Industry PBV TTM";
    roa_ann := sf "RoA Ann  %";
    roa_ann_1y_ago := sf "RoA Ann  1Y Ago %";
    roe_1y_ago := sf "ROE Ann  1Y Ago %";
    roe_2y_ago := sf "ROE Ann  2Y Ago %";
    roe_3y_ago := sf "ROE Ann  3Y Ago %";
    roce_3y_avg := sf "ROCE Ann  3Y Avg %";
    roce_5y_avg := sf "ROCE Ann  5Y Avg %";
    cash_flow_return_on_assets := sf "Cash Flow Return on Assets Ann ";
    cash_flow_return_on_assets_1y_ago := sf "Cash Flow Return on Assets Ann  1Y ago";
    cash_eps_1y_growth := sf "Cash EPS 1Y Growth %";
    working_capital_turnover := sf "Working Capital Turnover Ann ";
    price_to_sales_ann := osf "Price To Sales Ann ";
    price_to_sales_ttm := osf "Price to Sales TTM";
    price_to_cashflow := osf "Price to Cashflow from Operations";
    operating_profit_ttm := sf "Operating Profit TTM";
    operating_profit_ttm_1y_ago := sf "Operating Profit TTM 1Y Ago";
    ebitda_ann_margin := sf "EBITDA Ann  margin %";
    ebitda_qtr_yoy_growth := sf "EBITDA Qtr YoY Growth %";
    promoter_pledge_percentage := sf "Promoter holding pledge percentage % Qtr";
    gross_npa_ratio := osf "Gross NPA ratio Qtr %";
    capital_adequacy_ratio := osf "Capital Adequacy Ratios Ann  %";
    industry_score := industry;
    sector_score := sector;
    tl_checklist_positive_score := tl_pos;
    tl_checklist_negative_score := tl_neg;
    swot_strengths := sw_s;
    swot_weakness := sw_w;
    swot_opportunities := sw_o;
    swot_threats := sw_t |} in
  Ok {| stock_name := name; nse_code := nse; isin := isin_v; metrics := m;
        quality_score := 0; quality_tier := "";
        insights := compute_insights m |}.

End Row.

Definition is_some {A} (o : option A) : bool := match o with Some _ => true | None => false end.

(** [stock.isin if stock.isin else stock.nse_code]. *)
Definition stock_key (s : QualityStock) : string :=
  if String.eqb (isin s) "" then nse_code s else isin s.

(** The deduplication step of [load_stocks] for one parsed stock. *)
Definition merge_stock (stocks_by_key : dict QualityStock) (stock : QualityStock)
  : dict QualityStock :=
  let k := stock_key stock in
  if String.eqb k "" then stocks_by_key
  else match dict_get k stocks_by_key with
       | Some existing =>
           if is_some (durability_score (metrics stock))
              && is_some (valuation_score (metrics stock))
              && (negb (is_some (durability_score (metrics existing)))
                  || negb (is_some (valuation_score (metrics existing))))
           then dict_set k stock stocks_by_key
           else stocks_by_key
       | None => dict_set k stock stocks_by_key
       end.

(** The rows of one file; a row whose parsing raises is skipped. *)
Definition load_file (stocks_by_key : dict QualityStock) (f : CsvFile) : dict QualityStock :=
  match contents f with
  | None => stocks_by_key
  | Some (fields, records) =>
      fold_left (fun acc r => match parse_row (row_dict r) with
                              | Ok s => merge_stock acc s
                              | Raise => acc
                              end)
                (reader_rows fields records) stocks_by_key
  end.

(** [load_stocks]: [csv_files] is what [_find_csv_files] returns and
    [fallback] the [csv_path] file when it is set and exists.  Returns the
    returned list and the new [self.stocks]. *)
Definition load_stocks (csv_files : list CsvFile) (fallback : option CsvFile)
  (self_stocks : list QualityStock) : list QualityStock * list QualityStock :=
  let files := match csv_files with
               | [] => match fallback with Some f => [f] | None => [] end
               | _ => csv_files
               end in
  match files with
  | [] => ([], self_stocks)
  | _ => let stocks := map snd (fold_left load_file files []) in (stocks, stocks)
  end.

(** *** The tier filters *)

(** [if not self.stocks: self.load_stocks()]. *)
Definition ensure_loaded (csv_files : list CsvFile) (fallback : option CsvFile)
  (self_stocks : list QualityStock) : list QualityStock :=
  match self_stocks with
  | [] => snd (load_stocks csv_files fallback self_stocks)
  | _ => self_stocks
  end.

(** [for stock in self.stocks: stock.quality_score = ...]. *)
Definition rescore (stocks : list QualityStock) : list QualityStock :=
  map (fun s => set_score s (calculate_quality_score s)) stocks.

Definition str_in (x : string) (l : list string) : bool := existsb (String.eqb x) l.

Definition great_gate (s : QualityStock) : bool :=
  let m := metrics s in
  let i := insights s in
  gtc (roe m) 12 && gtc (roce m) 15 && ltc (debt_to_equity m) 1.0
  && gtc (interest_coverage m) 3 && gtc (current_ratio m) 1.2
  && gtc (eps_ttm_growth m) 0 && gtc (operating_rev_growth_ttm m) 10
  && (1 <=? consecutive_positive_quarters i)%Z
  && str_in (profit_growth_consistency i) ["Consistent"; "Very Consistent"; "Moderate"]
  && str_in (margin_stability i) ["Stable"; "Expanding"; "Moderately Stable"]
  && Qle_bool 70 (quality_score s)
  && gtc (market_cap m) 0
  && gtc (roa_ann m) 5
  && gtc (cash_flow_return_on_assets m) 0
  && negb (String.eqb (cash_flow_quality i) "Negative")
  && ltc (promoter_pledge_percentage m) 30
  && (match altman_zscore m with None => true | Some z => gtc z 1.8 end).

Definition aggressive_gate (s : QualityStock) : bool :=
  let m := metrics s in
  let i := insights s in
  gtc (roe m) 10 && gtc (roce m) 12 && ltc (debt_to_equity m) 1.5
  && gtc (interest_coverage m) 2
  && (gtc (eps_ttm_growth m) 15 || gtc (operating_rev_growth_ttm m) 20)
  && Qle_bool 60 (quality_score s)
  && gtc (market_cap m) 0
  && negb (String.eqb (profit_growth_consistency i) "Inconsistent")
  && negb (String.eqb (margin_stability i) "Volatile")
  && gtc (roa_ann m) 3
  && negb (String.eqb (cash_flow_quality i) "Negative")
  && ltc (promoter_pledge_percentage m) 40
  && (match altman_zscore m with None => true | Some z => gtc z 1.5 end).

Definition good_gate (s : QualityStock) : bool :=
  let m := metrics s in
  let i := insights s in
  gtc (roe m) 8 && gtc (roce m) 10 && ltc (debt_to_equity m) 2.0
  && gtc (interest_coverage m) 1.5
  && Qle_bool 55 (quality_score s) && Qlt_bool (quality_score s) 70
  && gtc (market_cap m) 0
  && negb (String.eqb (profit_growth_consistency i) "Inconsistent")
  && negb (String.eqb (margin_stability i) "Volatile")
  && negb (String.eqb (cash_flow_quality i) "Negative")
  && (gtc (eps_ttm_growth m) (-5) || gtc (operating_rev_growth_ttm m) 5)
  && ltc (promoter_pledge_percentage m) 50.

(** The loop of a tier filter: stocks passing [gate] get [tier]; returns the
    updated [self.stocks] and the selected stocks, in list order. *)
Fixpoint tag_loop (gate : QualityStock -> bool) (tier : string) (stocks : list QualityStock)
  : list QualityStock * list QualityStock :=
  match stocks with
  | [] => ([], [])
  | s :: rest =>
      let '(st, sel) := tag_loop gate tier rest in
      if gate s then let s' := set_tier s tier in (s' :: st, s' :: sel)
      else (s :: st, sel)
  end.

Definition by_score (a b : QualityStock) : bool := Qlt_bool (quality_score a) (quality_score b).

Definition growth_key (s : QualityStock) : flt :=
  flt_div (flt_add (eps_ttm_growth (metrics s)) (operating_rev_growth_ttm (metrics s))) (Fin 2).

Definition by_growth (a b : QualityStock) : bool := flt_lt (growth_key a) (growth_key b).

(** Each filter takes [self.stocks] and returns the new [self.stocks] and
    its result. *)
Definition filter_great_quality_stocks (csv_files : list CsvFile) (fallback : option CsvFile)
  (self_stocks : list QualityStock) : list QualityStock * list QualityStock :=
  let stocks := rescore (ensure_loaded csv_files fallback self_stocks) in
  let '(st, great_stocks) := tag_loop great_gate "Great" stocks in
  (st, sort_desc by_score great_stocks).

Definition filter_aggressive_quality_stocks (csv_files : list CsvFile) (fallback : option CsvFile)
  (self_stocks : list QualityStock) : list QualityStock * list QualityStock :=
  let stocks := rescore (ensure_loaded csv_files fallback self_stocks) in
  let '(st, aggressive_stocks) := tag_loop aggressive_gate "Aggressive" stocks in
  (st, sort_desc by_growth aggressive_stocks).

Definition filter_medium_quality_stocks (csv_files : list CsvFile) (fallback : option CsvFile)
  (self_stocks : list QualityStock)
  (exclude_great exclude_aggressive : option (list QualityStock))
  : list QualityStock * list QualityStock :=
  let stocks := rescore (ensure_loaded csv_files fallback self_stocks) in
  let great_nse_codes := map nse_code (match exclude_great with Some l => l | None => [] end) in
  let aggressive_nse_codes :=
    map nse_code (match exclude_aggressive with Some l => l | None => [] end) in
  let gate := fun s => negb (str_in (nse_code s) great_nse_codes
                             || str_in (nse_code s) aggressive_nse_codes)
                       && good_gate s in
  let '(st, medium_stocks) := tag_loop gate "Good" stocks in
  (st, sort_desc by_score medium_stocks).

(** The [/api/quality-stocks/all] route: the three filters in sequence on
    the same service, the Good filter excluding the other two results. *)
Definition all_tiers (csv_files : list CsvFile) (fallback : option CsvFile)
  (self_stocks : list QualityStock)
  : list QualityStock * list QualityStock * list QualityStock :=
  let '(st1, great) := filter_great_quality_stocks csv_files fallback self_stocks in
  let '(st2, aggressive) := filter_aggressive_quality_stocks csv_files fallback st1 in
  let '(_, good) := filter_medium_quality_stocks csv_files fallback st2
                      (Some great) (Some aggressive) in
  (great, aggressive, good).

(** *** [filter_by_durability_valuation] *)

Definition score_ok (sc : option Z) (lo hi : option Z) : bool :=
  match sc with
  | None => false
  | Some v =>
      negb (match lo with Some l => (v <? l)%Z | None => false end)
      && negb (match hi with Some h => (h <? v)%Z | None => false end)
  end.

Definition dv_gate (min_d max_d min_v max_v : option Z) (s : QualityStock) : bool :=
  score_ok (durability_score (metrics s)) min_d max_d
  && score_ok (valuation_score (metrics s)) min_v max_v.

(** [(x.durability_score or 0) + (x.valuation_score or 0)]. *)
Definition dv_key (s : QualityStock) : Z :=
  (valz (durability_score (metrics s)) + valz (valuation_score (metrics s)))%Z.

Definition by_dv (a b : QualityStock) : bool := (dv_key a <? dv_key b)%Z.

Definition filter_by_durability_valuation (csv_files : list CsvFile) (fallback : option CsvFile)
  (self_stocks : list QualityStock) (min_d max_d min_v max_v : option Z)
  : list QualityStock * list QualityStock :=
  let stocks := rescore (ensure_loaded csv_files fallback self_stocks) in
  let '(st, filtered) := tag_loop (dv_gate min_d max_d min_v max_v)
                                  "High Durability & Valuation" stocks in
  (st, sort_desc by_dv filtered).

(** *** [get_stock_by_nse_code] *)

(** The loop of [get_stock_by_nse_code] on [self.stocks]: the first stock
    whose upper-cased NSE code is [u] is rescored in place and returned.
    Returns the new [self.stocks] and the result. *)
Fixpoint find_and_rescore (u : string) (stocks : list QualityStock)
  : list QualityStock * option QualityStock :=
  match stocks with
  | [] => ([], None)
  | s :: rest =>
      if String.eqb (py_upper (nse_code s)) u
      then let s' := set_score s (calculate_quality_score s) in (s' :: rest, Some s')
      else let '(r, o) := find_and_rescore u rest in (s :: r, o)
  end.

Definition get_stock_by_nse_code (csv_files : list CsvFile) (fallback : option CsvFile)
  (self_stocks : list QualityStock) (code : string)
  : list QualityStock * option QualityStock :=
  find_and_rescore (py_upper code) (ensure_loaded csv_files fallback self_stocks).

(** *** [get_durability_valuation_stats] *)

Record ScoreStats : Type := {
  st_min : Z;
  st_max : Z;
  st_avg : Q;
  st_median : Z
}.

Record DVStats : Type := {
  total_stocks : nat;
  stocks_with_durability_score : nat;
  stocks_with_valuation_score : nat;
  stocks_with_both_scores : nat;
  durability : option ScoreStats;
  valuation : option ScoreStats;
  score_ranges : option (list (string * nat))
}.

(** [sorted(xs)] on integers. *)
Fixpoint insert_asc (x : Z) (l : list Z) : list Z :=
  match l with
  | [] => [x]
  | y :: r => if (x <=? y)%Z then x :: y :: r else y :: insert_asc x r
  end.

Definition sorted_Z (l : list Z) : list Z := fold_right insert_asc [] l.

(** The [min], [max], [avg] and [median] entries of a non-empty list of
    scores: [min(xs)], [max(xs)], [round(sum(xs) / len(xs), 2)] and
    [sorted(xs)[len(xs) // 2]]. *)
Definition score_stats (xs : list Z) : option ScoreStats :=
  match xs with
  | [] => None
  | x :: r =>
      Some {| st_min := fold_left Z.min r x;
              st_max := fold_left Z.max r x;
              st_avg := round2 (inject_Z (fold_left Z.add xs 0%Z) / inject_Z (Z.of_nat (length xs)));
              st_median := nth (Nat.div (length xs) 2) (sorted_Z xs) 0%Z |}
  end.

(** [sum(1 for s in xs if lo <= f(s) < hi)], or [<= hi] when [closed]. *)
Definition count_range (f : QualityStock -> Z) (lo hi : Z) (closed : bool)
  (xs : list QualityStock) : nat :=
  length (filter (fun s => (lo <=? f s)%Z && (if closed then (f s <=? hi)%Z else (f s <? hi)%Z)) xs).

(** The durability and valuation scores of a stock known to have them
    ([valz] is never applied to [None] below). *)
Definition dur (s : QualityStock) : Z := valz (durability_score (metrics s)).
Definition valn (s : QualityStock) : Z := valz (valuation_score (metrics s)).

(** [get_durability_valuation_stats]: the new [self.stocks] and the
    statistics. *)
Definition get_durability_valuation_stats (csv_files : list CsvFile) (fallback : option CsvFile)
  (self_stocks : list QualityStock) : list QualityStock * DVStats :=
  let stocks := ensure_loaded csv_files fallback self_stocks in
  let stocks_with_durability := filter (fun s => is_some (durability_score (metrics s))) stocks in
  let stocks_with_valuation := filter (fun s => is_some (valuation_score (metrics s))) stocks in
  let stocks_with_both :=
    filter (fun s => is_some (durability_score (metrics s))
                     && is_some (valuation_score (metrics s))) stocks in
  let ranges :=
    match stocks_with_both with
    | [] => None
    | _ => Some [("durability_0_20", count_range dur 0 20 false stocks_with_both);
                 ("durability_20_40", count_range dur 20 40 false stocks_with_both);
                 ("durability_40_60", count_range dur 40 60 false stocks_with_both);
                 ("durability_60_80", count_range dur 60 80 false stocks_with_both);
                 ("durability_80_100", count_range dur 80 100 true stocks_with_both);
                 ("valuation_0_20", count_range valn 0 20 false stocks_with_both);
                 ("valuation_20_40", count_range valn 20 40 false stocks_with_both);
                 ("valuation_40_60", count_range valn 40 60 false stocks_with_both);
                 ("valuation_60_80", count_range valn 60 80 false stocks_with_both);
                 ("valuation_80_100", count_range valn 80 100 true stocks_with_both)]
    end in
  (stocks,
   {| total_stocks := length stocks;
      stocks_with_durability_score := length stocks_with_durability;
      stocks_with_valuation_score := length stocks_with_valuation;
      stocks_with_both_scores := length stocks_with_both;
      durability := score_stats (map dur stocks_with_durability);
      valuation := score_stats (map valn stocks_with_valuation);
      score_ranges := ranges |}).

End QS.

(** ** [services/trendlyne_stocks_service.py] *)

Module TS.

(** [datetime.now()] values are the ticks of a clock kept in the service
    state. *)
Record TrendlyneStock : Type := {
  stock : string;
  nse_code : option string;
  bse_code : option string;
  isin : option string;
  data : dict string;
  source_files : list string;
  last_updated : option nat
}.

(** [self._stocks], [self._loaded_files] and the clock. *)
Record Service : Type := {
  stocks : dict TrendlyneStock;
  loaded_files : list string;
  clock : nat
}.

Definition init : Service := {| stocks := []; loaded_files := []; clock := 0 |}.

(** The double quote character. *)
Definition dquote : ascii := ascii_of_nat 34.

(** [field.strip().strip(BOM).strip(dq).strip(sq)] with dq the double
    and sq the single quote; the byte order mark is not an ASCII
    character, so stripping it is the identity on the modelled strings. *)
Definition clean_key (k : string) : string :=
  strip_char "'" (strip_char dquote (py_strip k)).

Definition starts_with_quote (s : string) : bool :=
  match s with String c _ => Ascii.eqb c dquote | EmptyString => false end.

Definition ends_with_quote (s : string) : bool :=
  match rev (list_ascii_of_string s) with c :: _ => Ascii.eqb c dquote | [] => false end.

(** [s[1:-1]]. *)
Definition drop_first_last (s : string) : string :=
  match list_ascii_of_string s with
  | [] => EmptyString
  | _ :: r => string_of_list_ascii (removelast r)
  end.

(** [_clean_value]. *)
Definition _clean_value (value : option string) : option string :=
  match value with
  | None => None
  | Some v =>
      let value_str := py_strip v in
      let value_str :=
        if starts_with_quote value_str && ends_with_quote value_str
        then drop_first_last value_str else value_str in
      if String.eqb value_str "" || String.eqb value_str "-" then None
      else Some value_str
  end.

(** [row.get(k, "").strip()]: a [None] cell raises [AttributeError]. *)
Definition get_strip (row : dict (option string)) (k : string) : exn string :=
  match dict_get k row with
  | None => Ok ""
  | Some None => Raise
  | Some (Some v) => Ok (py_strip v)
  end.

(** [_get_stock_key]. *)
Definition _get_stock_key (row : dict (option string)) : exn (option string) :=
  isin_v <- get_strip row "ISIN" ;;
  nse <- get_strip row "NSE Code" ;;
  bse <- get_strip row "BSE Code" ;;
  Ok (if negb (String.eqb isin_v "") then Some ("ISIN:" ++ py_upper isin_v)
      else if negb (String.eqb nse "") then Some ("NSE:" ++ py_upper nse)
      else if negb (String.eqb bse "") then Some ("BSE:" ++ py_upper bse)
      else None).

(** [row.get(k, "")] passed to [_clean_value]. *)
Definition get_clean (row : dict (option string)) (k : string) : option string :=
  match dict_get k row with
  | None => _clean_value (Some "")
  | Some v => _clean_value v
  end.

Definition core_fields : list string := ["Stock"; "NSE Code"; "BSE Code"; "ISIN"; "Sl No"].

(** The [data] dict of a row: every other field whose cleaned value is not
    [None]. *)
Definition row_data (cleaned_row : dict (option string)) : dict string :=
  fold_left (fun d kv =>
               if existsb (String.eqb (fst kv)) core_fields then d
               else match _clean_value (snd kv) with
                    | Some cv => dict_set (fst kv) cv d
                    | None => d
                    end)
            cleaned_row [].

Definition truthy_s (o : option string) : bool :=
  match o with Some v => negb (String.eqb v "") | None => false end.

(** What a row contributes once it has passed the checks of the loop. *)
Record RowUpdate : Type := {
  u_key : string;
  u_name : string;
  u_nse : option string;
  u_bse : option string;
  u_isin : option string;
  u_data : dict string
}.

(** The checks of one iteration of the loop of [_process_csv_rows]: [Raise]
    when the row raises, [Ok None] when it is skipped. *)
Definition read_row (fieldnames : list string) (r : RawRow) : exn (option RowUpdate) :=
  match row_extra r with
  | _ :: _ => Raise  (* the [restkey] entry: [None.strip()] *)
  | [] =>
      let row := fold_left (fun d kv => dict_set (clean_key (fst kv)) (snd kv) d)
                           (row_dict r) [] in
      key <- _get_stock_key row ;;
      match key with
      | None => Ok None
      | Some stock_key =>
          match get_clean row "Stock" with
          | None => Ok None
          | Some stock_name =>
              Ok (Some {| u_key := stock_key; u_name := stock_name;
                          u_nse := get_clean row "NSE Code";
                          u_bse := get_clean row "BSE Code";
                          u_isin := get_clean row "ISIN";
                          u_data := row_data row |})
          end
      end
  end.

(** The rest of the iteration: merge into an existing stock or create one. *)
Definition apply_update (file_name : string) (u : RowUpdate) (st : Service) : Service :=
  let now := clock st in
  let st_stocks := stocks st in
  let stocks' :=
    match dict_get (u_key u) st_stocks with
    | Some existing =>
        let existing' := {|
          stock := stock existing;
          nse_code := if negb (truthy_s (nse_code existing)) && truthy_s (u_nse u)
                      then u_nse u else nse_code existing;
          bse_code := if negb (truthy_s (bse_code existing)) && truthy_s (u_bse u)
                      then u_bse u else bse_code existing;
          isin := if negb (truthy_s (isin existing)) && truthy_s (u_isin u)
                  then u_isin u else isin existing;
          data := dict_update (data existing) (u_data u);
          source_files := if existsb (String.eqb file_name) (source_files existing)
                          then source_files existing
                          else source_files existing ++ [file_name];
          last_updated := Some now |} in
        dict_set (u_key u) existing' st_stocks
    | None =>
        dict_set (u_key u)
          {| stock := u_name u;
             nse_code := if truthy_s (u_nse u) then u_nse u else None;
             bse_code := if truthy_s (u_bse u) then u_bse u else None;
             isin := if truthy_s (u_isin u) then u_isin u else None;
             data := u_data u;
             source_files := [file_name];
             last_updated := Some now |} st_stocks
    end in
  {| stocks := stocks'; loaded_files := loaded_files st; clock := S now |}.

(** [_process_csv_rows]: the state reached and whether an exception
    escaped; the rows before the one that raised stay merged. *)
Fixpoint process_rows (file_name : string) (fieldnames : list string) (rows : list RawRow)
  (st : Service) : Service * bool :=
  match rows with
  | [] => (st, false)
  | r :: rest =>
      match read_row fieldnames r with
      | Raise => (st, true)
      | Ok None => process_rows file_name fieldnames rest st
      | Ok (Some u) => process_rows file_name fieldnames rest (apply_update file_name u st)
      end
  end.

(** [_load_csv_file]: the [utf-8-sig] attempt, then on any exception the
    plain [utf-8] attempt, which reads the same rows (the modelled files
    carry no byte order mark).  An unreadable file raises in both. *)
Definition _load_csv_file (f : CsvFile) (st : Service) : Service * bool :=
  match contents f with
  | None => (st, true)
  | Some (header, records) =>
      let fieldnames := map clean_key header in
      let rows := reader_rows fieldnames records in
      let '(st1, raised1) := process_rows (file_name f) fieldnames rows st in
      if raised1 then process_rows (file_name f) fieldnames rows st1
      else (st1, false)
  end.

Definition add_loaded (name : string) (st : Service) : Service :=
  {| stocks := stocks st;
     loaded_files := if existsb (String.eqb name) (loaded_files st)
                     then loaded_files st else loaded_files st ++ [name];
     clock := clock st |}.

(** [load_all_files]: [csv_files] is what [_find_csv_files] returns. *)
Fixpoint load_all_files (force_reload : bool) (csv_files : list CsvFile) (st : Service)
  : Service * nat :=
  match csv_files with
  | [] => (st, 0%nat)
  | f :: rest =>
      if negb force_reload && existsb (String.eqb (file_name f)) (loaded_files st)
      then load_all_files force_reload rest st
      else
        let '(st1, raised) := _load_csv_file f st in
        if raised then load_all_files force_reload rest st1
        else let '(st2, n) := load_all_files force_reload rest (add_loaded (file_name f) st1) in
             (st2, S n)
  end.

Record RefreshStats : Type := {
  files_loaded : nat;
  stocks_before : nat;
  stocks_after : nat;
  stocks_added : Z;
  total_files_processed : nat
}.

(** [refresh_data]. *)
Definition refresh_data (csv_files : list CsvFile) (st : Service) : Service * RefreshStats :=
  let old_count := length (stocks st) in
  let '(st', fl) := load_all_files true csv_files st in
  let new_count := length (stocks st') in
  (st', {| files_loaded := fl; stocks_before := old_count; stocks_after := new_count;
           stocks_added := (Z.of_nat new_count - Z.of_nat old_count)%Z;
           total_files_processed := length (loaded_files st') |}).

(** [get_all_stocks]: loads the files when none has been loaded yet. *)
Definition get_all_stocks (csv_files : list CsvFile) (st : Service)
  : Service * list TrendlyneStock :=
  let st' := match loaded_files st with
             | [] => fst (load_all_files false csv_files st)
             | _ => st
             end in
  (st', map snd (stocks st')).

(** *** Lookups *)

(** [code and code.upper() == u]. *)
Definition code_matches (code : option string) (u : string) : bool :=
  match code with
  | Some c => negb (String.eqb c "") && String.eqb (py_upper c) u
  | None => false
  end.

(** The common body of [get_stock_by_nse_code], [get_stock_by_bse_code] and
    [get_stock_by_isin], for the field [code_of]. *)
Definition get_stock_by (code_of : TrendlyneStock -> option string)
  (csv_files : list CsvFile) (code : string) (st : Service)
  : Service * option TrendlyneStock :=
  let '(st', all_stocks) := get_all_stocks csv_files st in
  let code_upper := py_upper code in
  (st', find (fun s => code_matches (code_of s) code_upper) all_stocks).

Definition get_stock_by_nse_code := get_stock_by nse_code.
Definition get_stock_by_bse_code := get_stock_by bse_code.
Definition get_stock_by_isin := get_stock_by isin.

(** [needle in hay] on strings. *)
Fixpoint str_contains (needle hay : string) : bool :=
  String.prefix needle hay
  || match hay with
     | EmptyString => false
     | String _ rest => str_contains needle rest
     end.

(** [search_by_name]. *)
Definition search_by_name (csv_files : list CsvFile) (query : string) (st : Service)
  : Service * list TrendlyneStock :=
  let '(st', all_stocks) := get_all_stocks csv_files st in
  let query_lower := py_lower query in
  (st', filter (fun s => str_contains query_lower (py_lower (stock s))) all_stocks).

End TS.

(** ** Sample source files *)

Module Samples.

(** A strong company: the row passes the Great gate. *)
Definition acme_header : list string :=
  ["Stock"; "NSE Code"; "ISIN"; "Market Cap"; "ROE Ann  %"; "ROCE Ann  %";
   "Total Debt to Total Equity Ann "; "Interest Coverage Ratio Ann "; "Current Ratio Ann ";
   "EPS TTM Growth %"; "Operating Rev  growth TTM %"; "Net Profit Ann ";
   "Net Profit Ann  1Y Ago"; "OPM Ann  %"; "OPM Ann  1Y ago %"; "Basic EPS Qtr";
   "Basic EPS 1Q Ago"; "Net Profit Qtr"; "Net Profit 1Q Ago"; "Operating Profit Margin Qtr %";
   "OPM 1Q ago %"; "RoA Ann  %"; "Cash Flow Return on Assets Ann "; "Durability Score";
   "Valuation Score"; "Promoter holding latest %"; "Promoter holding change 1Y %"; "PEG TTM";
   "Industry PBV TTM"; "EV Per EBITDA Ann "; "Piotroski Score"; "Altman Zscore";
   "Cash EPS 1Y Growth %"; "Working Capital Turnover Ann "; "EBITDA Ann  margin %";
   "ROCE Ann  3Y Avg %"; "ROCE Ann  5Y Avg %"].

Definition acme_row : list string :=
  ["Acme"; "ACME"; "INE000A01010"; "5000"; "25"; "28"; "0"; "15"; "2.5"; "22"; "25"; "120";
   "100"; "20"; "18"; "5"; "4"; "30"; "28"; "21"; "19"; "12"; "11"; "80"; "60"; "60"; "2";
   "1.0"; "1.5"; "7"; "8"; "4"; "25"; "12"; "30"; "27"; "26"].

Definition acme_file : CsvFile :=
  {| file_name := "acme.csv"; contents := Some (acme_header, [acme_row]) |}.

(** Negative Trendlyne scores. *)
Definition neg_file : CsvFile :=
  {| file_name := "neg.csv";
     contents := Some (["Stock"; "NSE Code"; "Durability Score"; "Valuation Score"],
                       [["Neg"; "NEG"; "-100"; "-100"]]) |}.

(** Two rows with the same key; only the second has both Trendlyne scores. *)
Definition dup_file : CsvFile :=
  {| file_name := "dup.csv";
     contents := Some (["Stock"; "NSE Code"; "ROE Ann  %"; "Durability Score"; "Valuation Score"],
                       [["Dup"; "DUP"; "25"; ""; ""]; ["Dup"; "DUP"; ""; "70"; "60"]]) |}.


Definition later_file : CsvFile :=
  {| file_name := "b.csv";
     contents := Some (["Stock"; "NSE Code"; "ROE Ann  %"], [["X"; "XX"; "20"]]) |}.

(** A current file that no longer lists the company of [later_file]. *)
Definition other_file : CsvFile :=
  {| file_name := "c.csv";
     contents := Some (["Stock"; "NSE Code"; "ROE Ann  %"], [["Z"; "ZZ"; "30"]]) |}.

End Samples.

(** The stocks the Great filter scores, for the sample file. *)
Definition acme_stock : QS.QualityStock :=
  ltac:(let v := eval vm_compute in
          (hd_error (QS.rescore (fst (QS.load_stocks [Samples.acme_file] None [])))) in
        match v with Some ?s => exact s end).

(** ** The streak of [_count_consecutive_positive_quarters] as the
    specification words it: a pair counts when the later quarter's EPS is
    positive and either exceeds the earlier one or the earlier one is not
    positive; the walk stops at the first pair that does not count. *)
Fixpoint streak_spec (pairs : list (flt * flt)) : Z :=
  match pairs with
  | [] => 0
  | (later, earlier) :: rest =>
      if gtc later 0 && (flt_gt later earlier || lec earlier 0)
      then (1 + streak_spec rest)%Z else 0%Z
  end.

(** ** Auxiliary definitions of the proofs *)

(** The comparison of [sort(key=key, reverse=True)] and the order its
    result respects. *)
Definition key_lt {A} (key : A -> Z) (a b : A) : bool := (key a <? key b)%Z.
Definition key_ge {A} (key : A -> Z) (a b : A) : Prop := (key b <= key a)%Z.

(** An optional integer that is absent or not negative. *)
Definition nonneg_opt (o : option Z) : Prop :=
  match o with Some z => (0 <= z)%Z | None => True end.

Module TSRun.
Import TS.

(** A value [_clean_value] can return. *)
Definition good_value (v : string) : Prop :=
  (exists raw, _clean_value (Some raw) = Some v) /\ v <> "" /\ v <> "-".

(** Every value held in a [data] map is good. *)
Definition data_ok (st : Service) : Prop :=
  forall k s, In (k, s) (stocks st) -> forall j v, In (j, v) (data s) -> good_value v.

(** The operations of the service that change its state. *)
Inductive Op : Type :=
| OpLoadAll (force_reload : bool) (csv_files : list CsvFile)
| OpRefresh (csv_files : list CsvFile)
| OpGetAll (csv_files : list CsvFile).

Definition exec_op (st : Service) (op : Op) : Service :=
  match op with
  | OpLoadAll force fs => fst (load_all_files force fs st)
  | OpRefresh fs => fst (refresh_data fs st)
  | OpGetAll fs => fst (get_all_stocks fs st)
  end.

Definition run (ops : list Op) (st : Service) : Service := fold_left exec_op ops st.


End TSRun.

(** ** [services/trendlyne_quality_service.py] *)

Module TQ.
Import TS.

Inductive QualityTier : Type := GREAT | MEDIUM | GOOD | NONE.

(** [QualityFilteredStock]: the [TrendlyneStock] whose fields it copies
    ([**stock_dict]) and its own fields. *)
Record QualityFilteredStock : Type := {
  base : TrendlyneStock;
  quality_tier : QualityTier;
  quality_score : flt;
  passed_criteria : list (string * bool)
}.

(** [stock.data.get(key, default)]. *)
Definition data_get (s : TrendlyneStock) (key : string) (default : pyval) : pyval :=
  match dict_get key (data s) with
  | Some v => PyStr v
  | None => default
  end.

(** [_get_value(stock, key, None)], which is also
    [_safe_float(stock.data.get(key), None)]. *)
Definition _get_value_opt (s : TrendlyneStock) (key : string) : option flt :=
  tq_safe_float (data_get s key PyNone) None.

(** [_get_value(stock, key, default)] with an integer default: [_safe_float]
    returns a float in every case ([float(default)] when the key is
    missing), so the [None] branch is never taken. *)
Definition _get_value (s : TrendlyneStock) (key : string) (default : Z) : flt :=
  match tq_safe_float (data_get s key (PyInt default)) (Some (fZ default)) with
  | Some x => x
  | None => fZ default
  end.

Definition _check_promoter_holding_stable (s : TrendlyneStock) : bool :=
  let holding_change := _get_value s "Promoter holding change QoQ %" 0 in
  gec holding_change (-1) && lec holding_change 10.

Definition _check_positive_quarters (s : TrendlyneStock) : bool * bool :=
  let eps_qoq := _get_value s "Basic EPS QoQ Growth %" 0 in
  let eps_qtr_yoy := _get_value s "EPS Qtr YoY Growth %" 0 in
  let positive_count := (Nat.b2n (gtc eps_qoq 0) + Nat.b2n (gtc eps_qtr_yoy 0))%nat in
  (Nat.leb 1 positive_count, Nat.leb 2 positive_count).

Definition _check_profit_growth_consistent (s : TrendlyneStock) : bool :=
  let profit_3y := _get_value s "Net Profit 3Y Growth %" 0 in
  let profit_5y := _get_value s "Net Profit 5Y Growth %" 0 in
  let profit_qoq := _get_value s "Net Profit QoQ Growth %" 0 in
  let positive_count :=
    (Nat.b2n (gtc profit_3y 0) + Nat.b2n (gtc profit_5y 0) + Nat.b2n (gtc profit_qoq 0))%nat in
  Nat.leb 2 positive_count.

Definition _check_margin_stable (s : TrendlyneStock) : bool :=
  let opm_ann := _get_value s "OPM Ann  %" 0 in
  let opm_ttm := _get_value s "OPM TTM %" 0 in
  if gtc opm_ann 0 && gtc opm_ttm 0 then
    let diff := flt_abs (flt_sub opm_ann opm_ttm) in
    lec diff 5 || flt_ge opm_ttm opm_ann
  else gtc opm_ann 0 || gtc opm_ttm 0.

Definition _check_eps_trend_rising (s : TrendlyneStock) : bool :=
  let eps_ttm_growth := _get_value s "EPS TTM Growth %" 0 in
  gtc eps_ttm_growth 0.

Definition _check_sales_growth (s : TrendlyneStock) : bool :=
  let profit_3y := _get_value s "Net Profit 3Y Growth %" 0 in
  let profit_qoq := _get_value s "Net Profit QoQ Growth %" 0 in
  gtc profit_3y 10 || gtc profit_qoq 10.

(** [(pe_ok, peg_ok, pb_ok, ev_ok)]. *)
Definition _check_valuation (s : TrendlyneStock) : bool * bool * bool * bool :=
  let peg := _get_value_opt s "PEG TTM" in
  let peg_ok := match peg with
                | Some p => if gtc p 0 then gec p 0.7 && lec p 1.5 else true
                | None => true
                end in
  let pbv := _get_value_opt s "PBV Adjusted" in
  let pb_ok := match pbv with
               | Some p => if gtc p 0 then ltc p 5 else true
               | None => true
               end in
  let ev_ebitda := _get_value_opt s "EV Per EBITDA Ann " in
  let ev_ok := match ev_ebitda with
               | Some e => if gtc e 0 then ltc e 20 else true
               | None => true
               end in
  let pe_ok := true in
  (pe_ok, peg_ok, pb_ok, ev_ok).

(** The values every filter reads first, with the fallback of the current
    ratio to its TTM value when it is [0]. *)
Record CoreValues : Type := {
  roe : flt;
  roce : flt;
  debt_equity : flt;
  interest_coverage : flt;
  current_ratio : flt
}.

Definition core_values (s : TrendlyneStock) : CoreValues :=
  let current_ratio := _get_value s "Current Ratio Ann" 0 in
  let current_ratio :=
    if eqc current_ratio 0 then _get_value s "Current Ratio TTM" 0 else current_ratio in
  {| roe := _get_value s "ROE Ann  %" 0;
     roce := _get_value s "ROCE Ann  %" 0;
     debt_equity := _get_value s "Total Debt to Total Equity Ann" 999;
     interest_coverage := _get_value s "Interest Coverage Ratio Ann" 0;
     current_ratio := current_ratio |}.

(** An [if ... elif ...] chain of [score += points] without [else]: the
    points of the first condition that holds. *)
Fixpoint add_first (score : flt) (chain : list (bool * Q)) : flt :=
  match chain with
  | [] => score
  | (cond, points) :: rest => if cond then flt_add score (Fin points) else add_first score rest
  end.

(** [score += (x / 100) * 10] when [x is not None]. *)
Definition add_index (score : flt) (x : option flt) : flt :=
  match x with
  | Some v => flt_add score (flt_mul (flt_div v (fZ 100)) (fZ 10))
  | None => score
  end.

(** Python's [min(a, b)]: the first argument unless the second is smaller. *)
Definition py_min (a b : flt) : flt := if flt_lt b a then b else a.

Definition _calculate_quality_score (s : TrendlyneStock) (roe roce debt_equity : flt)
  (interest_coverage current_ratio : flt) (durability_score valuation_score : option flt) : flt :=
  let score := Fin 0 in
  let score := add_first score [(gtc roe 20, 15); (gtc roe 15, 12); (gtc roe 12, 10);
                                (gtc roe 8, 5)] in
  let score := add_first score [(gtc roce 25, 15); (gtc roce 20, 12); (gtc roce 15, 10);
                                (gtc roce 10, 5)] in
  let score := add_first score [(eqc debt_equity 0, 10); (ltc debt_equity 0.3, 8);
                                (ltc debt_equity 0.5, 6); (ltc debt_equity 1.0, 4)] in
  let score := add_first score [(gtc interest_coverage 10, 8); (gtc interest_coverage 5, 6);
                                (gtc interest_coverage 3, 4)] in
  let score := add_first score [(gtc current_ratio 2.0, 7); (gtc current_ratio 1.5, 5);
                                (gtc current_ratio 1.2, 3)] in
  let score := add_index score durability_score in
  let score := add_index score valuation_score in
  let eps_ttm_growth := _get_value s "EPS TTM Growth %" 0 in
  let score := add_first score [(gtc eps_ttm_growth 20, 10); (gtc eps_ttm_growth 10, 7);
                                (gtc eps_ttm_growth 0, 4)] in
  let profit_3y := _get_value s "Net Profit 3Y Growth %" 0 in
  let score := add_first score [(gtc profit_3y 20, 10); (gtc profit_3y 10, 7);
                                (gtc profit_3y 0, 4)] in
  py_min score (Fin 100).

(** The [passed_criteria] dict. *)
Definition criteria (roe_ok roce_ok debt_ok interest_ok current_ok promoter_ok : bool)
  (positive_quarters sales_growth_ok profit_consistent margin_stable eps_rising : bool)
  (valuation_ok : bool) : list (string * bool) :=
  [("roe", roe_ok); ("roce", roce_ok); ("debt_equity", debt_ok);
   ("interest_coverage", interest_ok); ("current_ratio", current_ok);
   ("promoter_holding", promoter_ok); ("positive_quarters", positive_quarters);
   ("sales_growth", sales_growth_ok); ("profit_consistent", profit_consistent);
   ("margin_stable", margin_stable); ("eps_rising", eps_rising);
   ("valuation", valuation_ok)].

(** The body of the loop of [filter_great_quality_stocks] for one stock. *)
Definition great_entry (s : TrendlyneStock) : option QualityFilteredStock :=
  let c := core_values s in
  let roe_ok := gtc (roe c) 12 in
  let roce_ok := gtc (roce c) 15 in
  let debt_ok := ltc (debt_equity c) 1 in
  let interest_ok := gtc (interest_coverage c) 3 in
  let current_ok := gtc (current_ratio c) 1.2 in
  let promoter_ok := _check_promoter_holding_stable s in
  let '(positive_quarters, two_quarters) := _check_positive_quarters s in
  let sales_growth_ok := _check_sales_growth s in
  let profit_consistent := _check_profit_growth_consistent s in
  let margin_stable := _check_margin_stable s in
  let eps_rising := _check_eps_trend_rising s in
  let '(pe_ok, peg_ok, pb_ok, ev_ok) := _check_valuation s in
  let durability_score := _get_value_opt s "Durability Score" in
  let valuation_score := _get_value_opt s "Valuation Score" in
  if roe_ok && roce_ok && debt_ok && interest_ok && current_ok && promoter_ok
     && positive_quarters && sales_growth_ok && profit_consistent && margin_stable
     && eps_rising
  then Some {| base := s; quality_tier := GREAT;
               quality_score := _calculate_quality_score s (roe c) (roce c) (debt_equity c)
                                  (interest_coverage c) (current_ratio c)
                                  durability_score valuation_score;
               passed_criteria := criteria roe_ok roce_ok debt_ok interest_ok current_ok
                                    promoter_ok positive_quarters sales_growth_ok
                                    profit_consistent margin_stable eps_rising
                                    (pe_ok && peg_ok && pb_ok && ev_ok) |}
  else None.

(** The body of the loop of [filter_medium_quality_stocks] for a stock not
    skipped. *)
Definition medium_entry (s : TrendlyneStock) : option QualityFilteredStock :=
  let c := core_values s in
  let roe_ok := gtc (roe c) 11.5 in
  let roce_ok := gtc (roce c) 14 in
  let debt_ok := ltc (debt_equity c) 1.1 in
  let interest_ok := gtc (interest_coverage c) 2.8 in
  let current_ok := gtc (current_ratio c) 1.15 in
  let promoter_ok := _check_promoter_holding_stable s in
  let core_passed := (Nat.b2n roe_ok + Nat.b2n roce_ok + Nat.b2n debt_ok
                      + Nat.b2n interest_ok + Nat.b2n current_ok + Nat.b2n promoter_ok)%nat in
  let '(positive_quarters, two_quarters) := _check_positive_quarters s in
  let sales_growth_ok := _check_sales_growth s || gtc (roe c) 10 in
  let profit_consistent := _check_profit_growth_consistent s in
  let margin_stable := _check_margin_stable s in
  let eps_rising := _check_eps_trend_rising s in
  let '(pe_ok, peg_ok, pb_ok, ev_ok) := _check_valuation s in
  let durability_score := _get_value_opt s "Durability Score" in
  let valuation_score := _get_value_opt s "Valuation Score" in
  let has_strong_core := Nat.leb 5 core_passed in
  let has_exceptional_fundamentals :=
    Nat.leb 4 core_passed && (gtc (roe c) 14 || gtc (roce c) 17)
    && two_quarters && profit_consistent && margin_stable in
  if (has_strong_core
      && (two_quarters || (positive_quarters && profit_consistent && margin_stable)))
     || has_exceptional_fundamentals
  then Some {| base := s; quality_tier := MEDIUM;
               quality_score := _calculate_quality_score s (roe c) (roce c) (debt_equity c)
                                  (interest_coverage c) (current_ratio c)
                                  durability_score valuation_score;
               passed_criteria := criteria roe_ok roce_ok debt_ok interest_ok current_ok
                                    promoter_ok positive_quarters sales_growth_ok
                                    profit_consistent margin_stable eps_rising
                                    (pe_ok && peg_ok && pb_ok && ev_ok) |}
  else None.

(** The body of the loop of [filter_good_quality_stocks] for a stock not
    skipped. *)
Definition good_entry (s : TrendlyneStock) : option QualityFilteredStock :=
  let c := core_values s in
  let roe_ok := gtc (roe c) 3 in
  let roce_ok := gtc (roce c) 4 in
  let debt_ok := ltc (debt_equity c) 4.0 in
  let interest_ok := gtc (interest_coverage c) 0.1 in
  let current_ok := gtc (current_ratio c) 0.5 in
  let promoter_ok := _check_promoter_holding_stable s || gtc (roe c) 1 || gtc (roce c) 3 in
  let core_passed := (Nat.b2n roe_ok + Nat.b2n roce_ok + Nat.b2n debt_ok
                      + Nat.b2n interest_ok + Nat.b2n current_ok + Nat.b2n promoter_ok)%nat in
  let '(positive_quarters, _) := _check_positive_quarters s in
  let sales_growth_ok := _check_sales_growth s || gtc (roe c) 1 || gtc (roce c) 3 in
  let profit_consistent := _check_profit_growth_consistent s in
  let margin_stable := _check_margin_stable s in
  let eps_rising := _check_eps_trend_rising s in
  let '(pe_ok, peg_ok, pb_ok, ev_ok) := _check_valuation s in
  let durability_score := _get_value_opt s "Durability Score" in
  let valuation_score := _get_value_opt s "Valuation Score" in
  let has_any_quality := Nat.leb 1 core_passed in
  let has_any_returns := gtc (roe c) 0 || gtc (roce c) 0 in
  let has_any_growth := positive_quarters || sales_growth_ok || profit_consistent in
  let has_durability_score :=
    match durability_score with Some d => gtc d 0 | None => false end in
  let has_valuation_score :=
    match valuation_score with Some v => gtc v 0 | None => false end in
  if has_any_quality || has_any_returns || has_any_growth
     || has_durability_score || has_valuation_score
  then Some {| base := s; quality_tier := GOOD;
               quality_score := _calculate_quality_score s (roe c) (roce c) (debt_equity c)
                                  (interest_coverage c) (current_ratio c)
                                  durability_score valuation_score;
               passed_criteria := criteria roe_ok roce_ok debt_ok interest_ok current_ok
                                    promoter_ok positive_quarters sales_growth_ok
                                    profit_consistent margin_stable eps_rising
                                    (pe_ok && peg_ok && pb_ok && ev_ok) |}
  else None.

(** The truthy value of an optional string field. *)
Definition truthy_str (o : option string) : option string :=
  match o with
  | Some v => if String.eqb v "" then None else Some v
  | None => None
  end.

(** [_get_stock_key]. *)
Definition _get_stock_key (s : TrendlyneStock) : string :=
  match truthy_str (isin s), truthy_str (nse_code s), truthy_str (bse_code s) with
  | Some i, _, _ => "ISIN:" ++ py_upper i
  | None, Some n, _ => "NSE:" ++ py_upper n
  | None, None, Some b => "BSE:" ++ py_upper b
  | None, None, None => "STOCK:" ++ py_upper (stock s)
  end.

(** The entries a loop appends, in order. *)
Fixpoint filter_map {A B} (f : A -> option B) (l : list A) : list B :=
  match l with
  | [] => []
  | x :: r => match f x with
              | Some y => y :: filter_map f r
              | None => filter_map f r
              end
  end.

(** [sort(key=lambda x: x.quality_score, reverse=True)]. *)
Definition by_quality (a b : QualityFilteredStock) : bool :=
  flt_lt (quality_score a) (quality_score b).

(** [key in keys] for a set of keys. *)
Definition key_in (k : string) (keys : list string) : bool := existsb (String.eqb k) keys.

(** Each filter takes the state of the stocks service, whose
    [get_all_stocks] it calls, and returns the state reached and its
    result. *)
Definition filter_great_quality_stocks (csv_files : list CsvFile) (st : Service)
  : Service * list QualityFilteredStock :=
  let '(st1, all_stocks) := get_all_stocks csv_files st in
  (st1, sort_desc by_quality (filter_map great_entry all_stocks)).

Definition filter_medium_quality_stocks (csv_files : list CsvFile) (st : Service)
  : Service * list QualityFilteredStock :=
  let '(st1, all_stocks) := get_all_stocks csv_files st in
  let '(st2, great_stocks) := filter_great_quality_stocks csv_files st1 in
  let great_stock_keys := map (fun q => _get_stock_key (base q)) great_stocks in
  (st2, sort_desc by_quality
          (filter_map (fun s => if key_in (_get_stock_key s) great_stock_keys then None
                                else medium_entry s) all_stocks)).

Definition filter_good_quality_stocks (csv_files : list CsvFile) (st : Service)
  : Service * list QualityFilteredStock :=
  let '(st1, all_stocks) := get_all_stocks csv_files st in
  let '(st2, great_stocks) := filter_great_quality_stocks csv_files st1 in
  let '(st3, medium_stocks) := filter_medium_quality_stocks csv_files st2 in
  let great_stock_keys := map (fun q => _get_stock_key (base q)) great_stocks in
  let medium_stock_keys := map (fun q => _get_stock_key (base q)) medium_stocks in
  (st3, sort_desc by_quality
          (filter_map (fun s => if key_in (_get_stock_key s) great_stock_keys
                                   || key_in (_get_stock_key s) medium_stock_keys then None
                                else good_entry s) all_stocks)).

(** [get_all_quality_stocks(tier)]: [None] and [QualityTier.NONE] both give
    the three tiers combined. *)
Definition get_all_quality_stocks (tier : option QualityTier) (csv_files : list CsvFile)
  (st : Service) : Service * list QualityFilteredStock :=
  match tier with
  | Some GREAT => filter_great_quality_stocks csv_files st
  | Some MEDIUM => filter_medium_quality_stocks csv_files st
  | Some GOOD => filter_good_quality_stocks csv_files st
  | _ =>
      let '(st1, great) := filter_great_quality_stocks csv_files st in
      let '(st2, medium) := filter_medium_quality_stocks csv_files st1 in
      let '(st3, good) := filter_good_quality_stocks csv_files st2 in
      (st3, (great ++ medium ++ good)%list)
  end.

End TQ.

(** The stock of [later_file] once loaded, and the state reached. *)
Definition sample_stock : TS.TrendlyneStock :=
  {| TS.stock := "X"; TS.nse_code := Some "XX"; TS.bse_code := None; TS.isin := None;
     TS.data := [("ROE Ann  %", "20")]; TS.source_files := ["b.csv"];
     TS.last_updated := Some 0%nat |}.

Definition sample_state : TS.Service :=
  fst (TS.load_all_files false [Samples.later_file] TS.init).

(** The scores a field holds across a list of stocks, skipping [None]. *)
Definition present (o : QS.QualityStock -> option Z) (l : list QS.QualityStock) : list Z :=
  flat_map (fun s => match o s with Some x => [x] | None => [] end) l.

(** What the [min], [max], [median] and [avg] entries of a statistics dict
    say about a list of scores: [min] and [max] are scores and bound all of
    them, [median] is a score, and [avg] lies between [min] and [max]. *)
Definition describes (scores : list Z) (d : QS.ScoreStats) : Prop :=
  In (QS.st_min d) scores /\ In (QS.st_max d) scores
  /\ (forall x, In x scores -> (QS.st_min d <= x <= QS.st_max d)%Z)
  /\ In (QS.st_median d) scores
  /\ inject_Z (QS.st_min d) <= QS.st_avg d <= inject_Z (QS.st_max d).

(** What [_process_csv_rows] keeps of a stored stock [s] in its later
    version [s']: the name, every non-empty code, every source file and
    every key of [data]. *)
Definition stock_kept (s s' : TS.TrendlyneStock) : Prop :=
  TS.stock s' = TS.stock s
  /\ (TS.truthy_s (TS.nse_code s) = true -> TS.nse_code s' = TS.nse_code s)
  /\ (TS.truthy_s (TS.bse_code s) = true -> TS.bse_code s' = TS.bse_code s)
  /\ (TS.truthy_s (TS.isin s) = true -> TS.isin s' = TS.isin s)
  /\ incl (TS.source_files s) (TS.source_files s')
  /\ (forall j, dict_mem j (TS.data s) = true -> dict_mem j (TS.data s') = true).

(** The shape of every stored stock: a non-empty list of distinct source
    files and a [last_updated] time before the clock. *)
Definition ts_wf (st : TS.Service) : Prop :=
  forall k s, In (k, s) (TS.stocks st) ->
    TS.source_files s <> [] /\ NoDup (TS.source_files s)
    /\ exists t, TS.last_updated s = Some t /\ (t < TS.clock st)%nat.

(** The score of [_calculate_quality_score] before its cap is a number
    that is not negative, or plus infinity. *)
Definition tq_score_ok (x : flt) : Prop :=
  match x with
  | Fin q => 0 <= q
  | Inf neg => neg = false
  | NaN => False
  end.

(** A Trendlyne index score given to [_calculate_quality_score]: absent, or
    not negative (plus infinity included). *)
Definition tq_index_ok (o : option flt) : Prop :=
  match o with
  | None => True
  | Some x => tq_score_ok x
  end.

(** The invariant of [stocks_by_key] in [load_stocks]. *)
Definition qs_keyed (d : dict QS.QualityStock) : Prop :=
  NoDup (map fst d) /\ Forall (fun kv => fst kv = QS.stock_key (snd kv) /\ fst kv <> "") d.

(** [st'] keeps what [st] holds: its loaded files and, for each stored
    stock, a stock under the same key that keeps it. *)
Definition ts_kept (st st' : TS.Service) : Prop :=
  incl (TS.loaded_files st) (TS.loaded_files st')
  /\ forall k s, dict_get k (TS.stocks st) = Some s ->
       exists s', dict_get k (TS.stocks st') = Some s' /\ stock_kept s s'.

(** * Properties *)

(** ** Generic lemmas *)

Lemma Qlt_bool_iff (x y : Q) : Qlt_bool x y = true <-> x < y.
Proof.
  unfold Qlt_bool. rewrite negb_true_iff. split.
  - intros H. apply Qnot_le_lt. intros H'. apply Qle_bool_iff in H'. congruence.
  - intros H. destruct (Qle_bool y x) eqn:E; [|reflexivity].
    apply Qle_bool_iff in E. exfalso. apply (Qlt_not_le x y); assumption.
Qed.

(** A float above a literal is above every smaller literal. *)
Lemma gtc_weaken (x : flt) (a b : Q) : gtc x a = true -> b <= a -> gtc x b = true.
Proof.
  unfold gtc, flt_gt, flt_lt. destruct x as [q| [|] |]; try discriminate; auto.
  rewrite !Qlt_bool_iff. intros H1 H2. apply Qle_lt_trans with a; assumption.
Qed.

(** A float below a literal is below every larger literal. *)
Lemma ltc_weaken (x : flt) (a b : Q) : ltc x a = true -> a <= b -> ltc x b = true.
Proof.
  unfold ltc, flt_lt. destruct x as [q| [|] |]; try discriminate; auto.
  rewrite !Qlt_bool_iff. intros H1 H2. apply Qlt_le_trans with a; assumption.
Qed.

Lemma dict_get_set_eq {V} (k : string) (v : V) (d : dict V) :
  dict_get k (dict_set k v d) = Some v.
Proof.
  induction d as [|[k' v'] r IH]; simpl.
  - rewrite String.eqb_refl. reflexivity.
  - destruct (String.eqb k k') eqn:E; simpl.
    + rewrite String.eqb_refl. reflexivity.
    + rewrite E. exact IH.
Qed.

Lemma dict_get_set_neq {V} (j k : string) (v : V) (d : dict V) :
  j <> k -> dict_get j (dict_set k v d) = dict_get j d.
Proof.
  intros Hne. induction d as [|[k' v'] r IH]; simpl.
  - apply String.eqb_neq in Hne. rewrite Hne. reflexivity.
  - destruct (String.eqb k k') eqn:E; simpl.
    + apply String.eqb_eq in E. subst k'.
      apply String.eqb_neq in Hne. rewrite Hne. reflexivity.
    + destruct (String.eqb j k'); [reflexivity | exact IH].
Qed.

(** A key that [e] does not hold keeps its value through [d.update(e)]. *)
Lemma dict_get_update_notin {V} (j : string) (d e : dict V) :
  dict_get j e = None -> dict_get j (dict_update d e) = dict_get j d.
Proof.
  unfold dict_update. revert d.
  induction e as [|[k v] r IH]; intros d He; simpl in *; [reflexivity|].
  destruct (String.eqb j k) eqn:E; [discriminate|].
  rewrite IH by exact He. apply dict_get_set_neq.
  apply String.eqb_neq. exact E.
Qed.

(** *** Python's stable descending sort *)

Section SortDesc.
Variable A : Type.
Variable key : A -> Z.


Lemma insert_desc_perm (x : A) (l : list A) : Permutation (insert_desc (key_lt key) x l) (x :: l).
Proof.
  induction l as [|y r IH]; simpl; [reflexivity|].
  destruct (key_lt key y x); [reflexivity|].
  rewrite IH. apply perm_swap.
Qed.

Lemma sort_desc_perm_aux (l acc : list A) :
  Permutation (fold_left (fun acc x => insert_desc (key_lt key) x acc) l acc) (l ++ acc).
Proof.
  revert acc. induction l as [|x r IH]; intros acc; simpl; [reflexivity|].
  rewrite IH, insert_desc_perm. symmetry. apply Permutation_middle.
Qed.

Lemma sort_desc_perm (l : list A) : Permutation (sort_desc (key_lt key) l) l.
Proof.
  unfold sort_desc. rewrite sort_desc_perm_aux, app_nil_r. reflexivity.
Qed.

Lemma insert_desc_hd (y x : A) (l : list A) :
  HdRel (key_ge key) y l -> (key_ge key) y x -> HdRel (key_ge key) y (insert_desc (key_lt key) x l).
Proof.
  intros Hl Hx. destruct l as [|z r]; simpl.
  - constructor. exact Hx.
  - destruct (key_lt key z x); constructor; [exact Hx|]. inversion Hl; assumption.
Qed.

Lemma insert_desc_sorted (x : A) (l : list A) :
  Sorted (key_ge key) l -> Sorted (key_ge key) (insert_desc (key_lt key) x l).
Proof.
  induction l as [|y r IH]; intros Hs; simpl.
  - repeat constructor.
  - unfold key_lt. destruct (key y <? key x)%Z eqn:E.
    + apply Z.ltb_lt in E. constructor; [exact Hs|]. constructor. unfold key_ge. lia.
    + apply Z.ltb_ge in E. apply Sorted_inv in Hs as [Hr Hh].
      constructor; [exact (IH Hr)|]. apply insert_desc_hd; [exact Hh|].
      unfold key_ge. lia.
Qed.

Lemma sort_desc_sorted (l : list A) : Sorted (key_ge key) (sort_desc (key_lt key) l).
Proof.
  unfold sort_desc.
  assert (H : forall acc, Sorted (key_ge key) acc ->
              Sorted (key_ge key) (fold_left (fun acc x => insert_desc (key_lt key) x acc) l acc)).
  { induction l as [|x r IH]; intros acc Hacc; simpl; [exact Hacc|].
    apply IH. apply insert_desc_sorted. exact Hacc. }
  apply H. constructor.
Qed.

End SortDesc.

Lemma Qlt_bool_false (x y : Q) : Qlt_bool x y = false <-> y <= x.
Proof.
  unfold Qlt_bool. rewrite negb_false_iff. apply Qle_bool_iff.
Qed.

(** A float strictly below another one is not NaN, so it is positive
    exactly when it is not [<= 0]. *)
Lemma gtc0_not_lec0 (c p : flt) :
  flt_gt c p = true -> gtc p 0 = negb (lec p 0).
Proof.
  unfold flt_gt, gtc, lec, flt_le, flt_lt, flt_eqb, flt_gt.
  destruct c as [x| [|] |], p as [y| [|] |]; simpl; try discriminate; try reflexivity;
    intros _;
    destruct (Qlt_bool 0 y) eqn:E1, (Qlt_bool y 0) eqn:E2, (Qeq_bool y 0) eqn:E3;
    simpl; try reflexivity; exfalso;
    first [apply Qlt_bool_iff in E1 | apply Qlt_bool_false in E1];
    first [apply Qlt_bool_iff in E2 | apply Qlt_bool_false in E2];
    first [apply Qeq_bool_iff in E3 | apply Qeq_bool_neq in E3];
    first [lra | apply E3; lra].
Qed.

Module QSFacts.
Import QS.

(** One pair of the loop counts exactly when the specification's condition
    holds. *)
Lemma streak_step (c p : flt) :
  (gtc c 0 && gtc p 0 && flt_gt c p) || (gtc c 0 && lec p 0)
  = gtc c 0 && (flt_gt c p || lec p 0).
Proof.
  destruct (gtc c 0); simpl; [|reflexivity].
  destruct (flt_gt c p) eqn:E.
  - rewrite (gtc0_not_lec0 c p E). destruct (lec p 0); reflexivity.
  - rewrite andb_false_r. reflexivity.
Qed.

Lemma count_streak_spec (pairs : list (flt * flt)) :
  count_streak pairs = streak_spec pairs.
Proof.
  induction pairs as [|[c p] rest IH]; simpl; [reflexivity|].
  rewrite <- streak_step.
  destruct (gtc c 0 && gtc p 0 && flt_gt c p); simpl; [rewrite IH; reflexivity|].
  destruct (gtc c 0 && lec p 0); simpl; [rewrite IH|]; reflexivity.
Qed.

Lemma count_streak_bounds (pairs : list (flt * flt)) :
  (0 <= count_streak pairs <= Z.of_nat (length pairs))%Z.
Proof.
  induction pairs as [|[c p] rest IH]; cbn [count_streak length]; [lia|].
  rewrite Nat2Z.inj_succ.
  destruct (gtc c 0 && gtc p 0 && flt_gt c p); [lia|].
  destruct (gtc c 0 && lec p 0); lia.
Qed.

(** C6: [_count_consecutive_positive_quarters] returns 0, 1 or 2, and
    equals the short-circuiting streak over the pairs (current, 1Q ago)
    and (1Q ago, 2Q ago) in which a pair counts when the later EPS is
    positive and either exceeds the earlier one or the earlier one is not
    positive. *)
Theorem consecutive_quarters_spec (m : Metrics) :
  (_count_consecutive_positive_quarters m = 0
   \/ _count_consecutive_positive_quarters m = 1
   \/ _count_consecutive_positive_quarters m = 2)%Z
  /\ _count_consecutive_positive_quarters m
     = streak_spec [(basic_eps_qtr m, basic_eps_1q_ago m);
                    (basic_eps_1q_ago m, basic_eps_2q_ago m)].
Proof.
  unfold _count_consecutive_positive_quarters. split.
  - pose proof (count_streak_bounds [(basic_eps_qtr m, basic_eps_1q_ago m);
                                     (basic_eps_1q_ago m, basic_eps_2q_ago m)]) as H.
    change (Z.of_nat (length _)) with 2%Z in H. lia.
  - apply count_streak_spec.
Qed.

Ltac qle := apply Qle_bool_imp_le; reflexivity.

(** C8: a stock that passes the Great gate passes every looser threshold on
    the same metric in the Aggressive and Good gates. *)
Theorem great_gate_implies_looser (s : QualityStock) :
  great_gate s = true ->
  let m := metrics s in
  gtc (roe m) 10 = true /\ gtc (roe m) 8 = true
  /\ gtc (roce m) 12 = true /\ gtc (roce m) 10 = true
  /\ ltc (debt_to_equity m) 1.5 = true /\ ltc (debt_to_equity m) 2.0 = true
  /\ gtc (interest_coverage m) 2 = true /\ gtc (interest_coverage m) 1.5 = true
  /\ ltc (promoter_pledge_percentage m) 40 = true
  /\ ltc (promoter_pledge_percentage m) 50 = true
  /\ (match altman_zscore m with None => true | Some z => gtc z 1.5 end) = true.
Proof.
  intros H. cbv zeta. unfold great_gate in H. cbv zeta in H.
  repeat rewrite andb_true_iff in H.
  destruct H as [[[[[[[[[[[[[[[[Hroe Hroce] Hde] Hic] _] _] _] _] _] _] _] _] _] _] _] Hpl] Hz].
  repeat split.
  - apply (gtc_weaken _ 12); [exact Hroe | qle].
  - apply (gtc_weaken _ 12); [exact Hroe | qle].
  - apply (gtc_weaken _ 15); [exact Hroce | qle].
  - apply (gtc_weaken _ 15); [exact Hroce | qle].
  - apply (ltc_weaken _ 1.0); [exact Hde | qle].
  - apply (ltc_weaken _ 1.0); [exact Hde | qle].
  - apply (gtc_weaken _ 3); [exact Hic | qle].
  - apply (gtc_weaken _ 3); [exact Hic | qle].
  - apply (ltc_weaken _ 30); [exact Hpl | qle].
  - apply (ltc_weaken _ 30); [exact Hpl | qle].
  - destruct (altman_zscore (metrics s)); [|reflexivity].
    apply (gtc_weaken _ 1.8); [exact Hz | qle].
Qed.

Lemma great_gate_implies_looser_witness :
  great_gate acme_stock = true
  /\ ltc (debt_to_equity (metrics acme_stock)) 2.0 = true.
Proof.
  assert (H : great_gate acme_stock = true) by (vm_compute; reflexivity).
  split; [exact H|].
  apply (great_gate_implies_looser acme_stock H).
Defined.

(** C5: both [_safe_float] functions return the default, without raising,
    on [None], [""], ["-"], ["N/A"], ["n/a"] and ["None"], and on every
    string that [float()] rejects once commas are removed (and, in the
    Trendlyne variant, surrounding blanks stripped). *)
Theorem safe_float_placeholders :
  (forall (d : flt) (v : pyval),
     In v [PyNone; PyStr ""; PyStr "-"; PyStr "N/A"; PyStr "n/a"; PyStr "None"] ->
     qs_safe_float v d = d)
  /\ (forall (d : flt) (s : string),
        py_float (remove_commas s) = None -> qs_safe_float (PyStr s) d = d)
  /\ (forall (d : option flt) (v : pyval),
        In v [PyNone; PyStr ""; PyStr "-"; PyStr "N/A"; PyStr "n/a"; PyStr "None"] ->
        tq_safe_float v d = d)
  /\ (forall (d : option flt) (s : string),
        py_float (py_strip (remove_commas s)) = None -> tq_safe_float (PyStr s) d = d).
Proof.
  repeat split.
  - intros d v Hv. simpl in Hv.
    repeat destruct Hv as [<- | Hv]; try contradiction; reflexivity.
  - intros d s H. simpl. rewrite H.
    destruct (String.eqb s "" || String.eqb s "-"); reflexivity.
  - intros d v Hv. simpl in Hv.
    repeat destruct Hv as [<- | Hv]; try contradiction; reflexivity.
  - intros d s H. simpl. rewrite H.
    destruct (String.eqb s "" || String.eqb s "-"); reflexivity.
Qed.

(** *** [filter_by_durability_valuation] *)

Lemma tag_loop_snd (gate : QualityStock -> bool) (tier : string) (l : list QualityStock) :
  snd (tag_loop gate tier l) = map (fun s => set_tier s tier) (filter gate l).
Proof.
  induction l as [|s rest IH]; simpl; [reflexivity|].
  destruct (tag_loop gate tier rest) as [st sel]. simpl in IH.
  destruct (gate s); simpl; rewrite IH; reflexivity.
Qed.

Lemma score_ok_iff (sc lo hi : option Z) :
  score_ok sc lo hi = true <->
  exists v, sc = Some v
            /\ (forall l, lo = Some l -> (l <= v)%Z)
            /\ (forall h, hi = Some h -> (v <= h)%Z).
Proof.
  unfold score_ok. destruct sc as [v|].
  - rewrite andb_true_iff, !negb_true_iff. split.
    + intros [Hl Hh]. exists v. repeat split.
      * intros l ->. apply Z.ltb_ge. exact Hl.
      * intros h ->. apply Z.ltb_ge. exact Hh.
    + intros [v' [Hv [Hl Hh]]]. injection Hv as <-. split.
      * destruct lo as [l|]; [apply Z.ltb_ge, Hl|]; reflexivity.
      * destruct hi as [h|]; [apply Z.ltb_ge, Hh|]; reflexivity.
  - split; [discriminate | intros [v [Hv _]]; discriminate].
Qed.

Lemma set_tier_metrics (s : QualityStock) (t : string) : metrics (set_tier s t) = metrics s.
Proof. reflexivity. Qed.

(** C7: a stock is in the result of [filter_by_durability_valuation]
    exactly when both Trendlyne scores are present and each lies within its
    inclusive bounds (a [None] bound is no constraint); the result holds the
    passing stocks (tagged with their tier) and is sorted by
    durability + valuation, highest first. *)
Theorem filter_by_durability_valuation_spec (csv_files : list CsvFile)
  (fallback : option CsvFile) (self_stocks : list QualityStock)
  (min_d max_d min_v max_v : option Z) :
  let stocks := rescore (ensure_loaded csv_files fallback self_stocks) in
  let result := snd (filter_by_durability_valuation csv_files fallback self_stocks
                       min_d max_d min_v max_v) in
  (forall s, In s result <->
     exists s0 d v, In s0 stocks /\ s = set_tier s0 "High Durability & Valuation"
       /\ durability_score (metrics s0) = Some d /\ valuation_score (metrics s0) = Some v
       /\ (forall l, min_d = Some l -> (l <= d)%Z) /\ (forall h, max_d = Some h -> (d <= h)%Z)
       /\ (forall l, min_v = Some l -> (l <= v)%Z) /\ (forall h, max_v = Some h -> (v <= h)%Z))
  /\ Permutation result (map (fun s => set_tier s "High Durability & Valuation")
                             (filter (dv_gate min_d max_d min_v max_v) stocks))
  /\ Sorted (fun a b => (dv_key b <= dv_key a)%Z) result
  /\ (forall s, In s result ->
        exists d v, durability_score (metrics s) = Some d
                    /\ valuation_score (metrics s) = Some v /\ dv_key s = (d + v)%Z).
Proof.
  intros stocks result.
  assert (Hres : result = sort_desc (key_lt dv_key)
                   (map (fun s => set_tier s "High Durability & Valuation")
                        (filter (dv_gate min_d max_d min_v max_v) stocks))).
  { subst result stocks. unfold filter_by_durability_valuation.
    rewrite <- tag_loop_snd.
    destruct (tag_loop _ _ _) as [st filtered]. reflexivity. }
  assert (Hperm : Permutation result (map (fun s => set_tier s "High Durability & Valuation")
                                         (filter (dv_gate min_d max_d min_v max_v) stocks)))
    by (rewrite Hres; apply sort_desc_perm).
  assert (Hin : forall s, In s result <->
            exists s0, In s0 stocks /\ s = set_tier s0 "High Durability & Valuation"
                       /\ dv_gate min_d max_d min_v max_v s0 = true).
  { intros s. split.
    - intros H. apply (Permutation_in _ Hperm) in H.
      apply in_map_iff in H as [s0 [<- H]]. apply filter_In in H as [H1 H2].
      exists s0. auto.
    - intros [s0 [H1 [-> H2]]]. apply (Permutation_in _ (Permutation_sym Hperm)).
      apply in_map_iff. exists s0. split; [reflexivity|]. apply filter_In. auto. }
  split; [|split; [exact Hperm | split]].
  - intros s. rewrite Hin. split.
    + intros [s0 [H1 [H2 H3]]]. unfold dv_gate in H3.
      apply andb_true_iff in H3 as [Hd Hv].
      apply score_ok_iff in Hd as [d [Hd [Hd1 Hd2]]].
      apply score_ok_iff in Hv as [v [Hv [Hv1 Hv2]]].
      exists s0, d, v. repeat split; assumption.
    + intros [s0 [d [v [H1 [H2 [Hd [Hv [Hd1 [Hd2 [Hv1 Hv2]]]]]]]]]].
      exists s0. repeat split; try assumption.
      unfold dv_gate. apply andb_true_iff. split; apply score_ok_iff; eauto.
  - rewrite Hres. apply (sort_desc_sorted _ dv_key).
  - intros s H. apply Hin in H as [s0 [_ [-> H3]]].
    unfold dv_gate in H3. apply andb_true_iff in H3 as [Hd Hv].
    apply score_ok_iff in Hd as [d [Hd _]]. apply score_ok_iff in Hv as [v [Hv _]].
    exists d, v. rewrite set_tier_metrics. repeat split; try assumption.
    unfold dv_key. rewrite set_tier_metrics, Hd, Hv. reflexivity.
Qed.

(** *** Tier exclusivity *)

(** C1 (the code diverges): [filter_aggressive_quality_stocks] does not
    exclude the Great stocks.  On a file with one strong company, the
    [/all] route returns it both as Great and as Aggressive. *)
Theorem great_stock_also_aggressive :
  let '(great, aggressive, good) := all_tiers [Samples.acme_file] None [] in
  map nse_code great = ["ACME"] /\ map nse_code aggressive = ["ACME"]
  /\ map quality_tier aggressive = ["Aggressive"] /\ good = [].
Proof. vm_compute. repeat split. Qed.

(** *** Score range *)

(** C2 (the code diverges): negative Trendlyne durability and valuation
    scores are truthy and [min(score / 2, 7)] adds negative points, so the
    quality score of such a row is -34.17, below 0. *)
Theorem negative_quality_score :
  map calculate_quality_score (fst (load_stocks [Samples.neg_file] None []))
  = [Qmake (-3417) 100]
  /\ map max_score (fst (load_stocks [Samples.neg_file] None [])) = [240].
Proof. vm_compute. split; reflexivity. Qed.

(** *** Deduplication in [load_stocks] *)

(** C3 (counterexample): the first row gives ROE 25 and no Trendlyne
    scores, the second row of the same company gives both scores but no
    ROE; the loaded stock has both scores and ROE 0, the value of the
    second row. *)
Lemma dedup_loses_first_row_roe :
  map (fun s => (roe (metrics s), durability_score (metrics s), valuation_score (metrics s)))
      (fst (load_stocks [Samples.dup_file] None []))
  = [(Fin 0, Some 70%Z, Some 60%Z)].
Proof. vm_compute. reflexivity. Qed.

(** *** Range of the quality score *)

Ltac case_ifs :=
  repeat match goal with |- context [if ?b then _ else _] => destruct b end.

Lemma half_capped_le (o : option Z) : half_capped o <= 7.
Proof.
  unfold half_capped, py_min_Q. destruct (truthy_z o); [|qle].
  destruct (Qlt_bool 7 _) eqn:E; [qle|]. apply Qlt_bool_false in E. exact E.
Qed.

Lemma half_capped_nonneg (o : option Z) : nonneg_opt o -> 0 <= half_capped o.
Proof.
  unfold half_capped, py_min_Q, nonneg_opt. intros H.
  destruct (truthy_z o); [|qle].
  destruct (Qlt_bool 7 _); [qle|].
  destruct o as [z|]; cbn [valz]; [|qle].
  assert (Hz : 0 <= inject_Z z) by (change 0 with (inject_Z 0); rewrite <- Zle_Qle; exact H).
  apply Qle_shift_div_l; [reflexivity|]. lra.
Qed.

Lemma twentieth_capped_le (o : option Z) : twentieth_capped o <= 1.5.
Proof.
  unfold twentieth_capped, py_min_Q. destruct (truthy_z o); [|qle].
  destruct (Qlt_bool 1.5 _) eqn:E; [qle|]. apply Qlt_bool_false in E. exact E.
Qed.

Lemma twentieth_capped_nonneg (o : option Z) : nonneg_opt o -> 0 <= twentieth_capped o.
Proof.
  unfold twentieth_capped, py_min_Q, nonneg_opt. intros H.
  destruct (truthy_z o); [|qle].
  destruct (Qlt_bool 1.5 _); [qle|].
  destruct o as [z|]; cbn [valz]; [|qle].
  assert (Hz : 0 <= inject_Z z) by (change 0 with (inject_Z 0); rewrite <- Zle_Qle; exact H).
  apply Qle_shift_div_l; [reflexivity|]. lra.
Qed.

Lemma rule_piotroski_le (m : Metrics) : rule_piotroski m <= 9.
Proof.
  unfold rule_piotroski. destruct (piotroski_score m) as [p|]; [|qle].
  change 9 with (inject_Z 9). rewrite <- Zle_Qle. lia.
Qed.

Lemma rule_piotroski_nonneg (m : Metrics) : nonneg_opt (piotroski_score m) -> 0 <= rule_piotroski m.
Proof.
  unfold rule_piotroski, nonneg_opt. destruct (piotroski_score m) as [p|]; [|intros; qle].
  intros H. change 0 with (inject_Z 0). rewrite <- Zle_Qle. lia.
Qed.

(** Every sub-rule earns at most its maximum. *)
Lemma rules_earned_le (s : QualityStock) : Forall (fun r => fst r <= snd r) (rules s).
Proof.
  unfold rules. cbv zeta.
  repeat constructor; cbn [fst snd];
    try (unfold rule_roe, rule_roce, rule_debt, rule_interest, rule_current, rule_promoter,
           rule_eps, rule_revenue, rule_profit, rule_opm, rule_peg, rule_quarters, rule_pe,
           rule_pb, rule_ev, rule_promoter_trend, rule_margin, rule_consistency, rule_altman,
           rule_tobin, rule_graham, rule_roa, rule_cash_flow, rule_cash_eps,
           rule_working_capital, rule_op_profit, rule_ebitda, rule_price_to_sales,
           rule_price_to_cashflow, rule_roce_consistency, rule_roe_trend, rule_pledge,
           rule_checklist, rule_bank; cbv zeta; case_ifs;
         try (destruct (gross_npa_ratio _)); case_ifs; qle).
  - unfold rule_trendlyne.
    pose proof (half_capped_le (durability_score (metrics s))).
    pose proof (half_capped_le (valuation_score (metrics s))). lra.
  - apply rule_piotroski_le.
  - unfold rule_relative.
    pose proof (twentieth_capped_le (industry_score (metrics s))).
    pose proof (twentieth_capped_le (sector_score (metrics s))). lra.
Qed.

(** Every sub-rule earns at least 0 when the integer scores are not
    negative. *)
Lemma rules_earned_nonneg (s : QualityStock) :
  nonneg_opt (durability_score (metrics s)) -> nonneg_opt (valuation_score (metrics s)) ->
  nonneg_opt (piotroski_score (metrics s)) -> nonneg_opt (industry_score (metrics s)) ->
  nonneg_opt (sector_score (metrics s)) ->
  Forall (fun r => 0 <= fst r) (rules s).
Proof.
  intros Hd Hv Hp Hi Hs. unfold rules. cbv zeta.
  repeat constructor; cbn [fst snd];
    try (unfold rule_roe, rule_roce, rule_debt, rule_interest, rule_current, rule_promoter,
           rule_eps, rule_revenue, rule_profit, rule_opm, rule_peg, rule_quarters, rule_pe,
           rule_pb, rule_ev, rule_promoter_trend, rule_margin, rule_consistency, rule_altman,
           rule_tobin, rule_graham, rule_roa, rule_cash_flow, rule_cash_eps,
           rule_working_capital, rule_op_profit, rule_ebitda, rule_price_to_sales,
           rule_price_to_cashflow, rule_roce_consistency, rule_roe_trend, rule_pledge,
           rule_checklist, rule_bank; cbv zeta; case_ifs;
         try (destruct (gross_npa_ratio _)); case_ifs; qle).
  - unfold rule_trendlyne.
    pose proof (half_capped_nonneg _ Hd). pose proof (half_capped_nonneg _ Hv). lra.
  - apply rule_piotroski_nonneg. exact Hp.
  - unfold rule_relative.
    pose proof (twentieth_capped_nonneg _ Hi). pose proof (twentieth_capped_nonneg _ Hs). lra.
Qed.

Lemma fold_earned_le (l : list (Q * Q)) (a b : Q) :
  a <= b -> Forall (fun r => fst r <= snd r) l ->
  fold_left (fun acc r => acc + fst r) l a <= fold_left (fun acc r => acc + snd r) l b.
Proof.
  revert a b. induction l as [|r rest IH]; intros a b Hab Hl; simpl; [exact Hab|].
  inversion Hl as [|? ? Hr Hrest]; subst.
  apply IH; [apply Qplus_le_compat; assumption | exact Hrest].
Qed.

Lemma fold_earned_nonneg (l : list (Q * Q)) (a : Q) :
  0 <= a -> Forall (fun r => 0 <= fst r) l -> 0 <= fold_left (fun acc r => acc + fst r) l a.
Proof.
  revert a. induction l as [|r rest IH]; intros a Ha Hl; simpl; [exact Ha|].
  inversion Hl as [|? ? Hr Hrest]; subst.
  apply IH; [lra | exact Hrest].
Qed.

Lemma max_score_240 (s : QualityStock) : max_score s = 240.
Proof. reflexivity. Qed.

Lemma Qround_half_even_le (x : Q) (z : Z) : x <= inject_Z z -> (Qround_half_even x <= z)%Z.
Proof.
  intros Hx. unfold Qround_half_even.
  assert (Hf : (Qfloor x <= z)%Z).
  { rewrite <- (Qfloor_Z z). apply Qfloor_resp_le. exact Hx. }
  pose proof (Qfloor_le x) as Hfx.
  assert (Hup : 1 # 2 <= x - inject_Z (Qfloor x) -> (Qfloor x + 1 <= z)%Z).
  { intros Hh. assert (Hlt : inject_Z (Qfloor x) < inject_Z z) by lra.
    rewrite <- Zlt_Qlt in Hlt. lia. }
  destruct (Qlt_bool (x - inject_Z (Qfloor x)) (1 # 2)) eqn:E1; [exact Hf|].
  apply Qlt_bool_false in E1.
  destruct (Qlt_bool (1 # 2) _); [exact (Hup E1)|].
  destruct (Z.even (Qfloor x)); [exact Hf | exact (Hup E1)].
Qed.

Lemma Qround_half_even_nonneg (x : Q) : 0 <= x -> (0 <= Qround_half_even x)%Z.
Proof.
  intros Hx. unfold Qround_half_even.
  assert (Hf : (0 <= Qfloor x)%Z).
  { rewrite <- (Qfloor_Z 0). apply Qfloor_resp_le. exact Hx. }
  destruct (Qlt_bool _ (1 # 2)); [exact Hf|].
  destruct (Qlt_bool (1 # 2) _); [lia|].
  destruct (Z.even (Qfloor x)); lia.
Qed.

Lemma round2_le_100 (q : Q) : q <= 100 -> round2 q <= 100.
Proof.
  intros Hq. unfold round2.
  assert (Hr : (Qround_half_even (q * 100) <= 10000)%Z)
    by (apply Qround_half_even_le; change (inject_Z 10000) with (100 * 100); lra).
  rewrite Zle_Qle in Hr. apply Qle_shift_div_r; [reflexivity|]. exact Hr.
Qed.

Lemma round2_nonneg (q : Q) : 0 <= q -> 0 <= round2 q.
Proof.
  intros Hq. unfold round2.
  assert (Hr : (0 <= Qround_half_even (q * 100))%Z)
    by (apply Qround_half_even_nonneg; lra).
  rewrite Zle_Qle in Hr. change (inject_Z 0) with 0 in Hr.
  apply Qle_shift_div_l; [reflexivity|]. lra.
Qed.

(** The quality score never exceeds 100, and it is at least 0 when the
    durability, valuation, Piotroski, industry and sector scores are absent
    or not negative. *)
Theorem quality_score_range (s : QualityStock) :
  calculate_quality_score s <= 100
  /\ (nonneg_opt (durability_score (metrics s)) -> nonneg_opt (valuation_score (metrics s)) ->
      nonneg_opt (piotroski_score (metrics s)) -> nonneg_opt (industry_score (metrics s)) ->
      nonneg_opt (sector_score (metrics s)) -> 0 <= calculate_quality_score s).
Proof.
  assert (Hle : earned s <= 240).
  { rewrite <- (max_score_240 s). apply fold_earned_le; [lra | apply rules_earned_le]. }
  unfold calculate_quality_score. rewrite max_score_240.
  change (Qlt_bool 0 240) with true. cbv iota. split.
  - apply round2_le_100.
    apply Qle_trans with (240 / 240 * 100); [|qle].
    apply Qmult_le_compat_r; [|qle]. apply Qmult_le_compat_r; [exact Hle | qle].
  - intros Hd Hv Hp Hi Hs. apply round2_nonneg.
    assert (H0 : 0 <= earned s)
      by (apply fold_earned_nonneg; [qle | apply rules_earned_nonneg; assumption]).
    apply Qmult_le_0_compat; [|qle]. apply Qmult_le_0_compat; [exact H0 | qle].
Qed.

End QSFacts.

Lemma dict_get_In {V} (k : string) (v : V) (d : dict V) :
  dict_get k d = Some v -> In (k, v) d.
Proof.
  induction d as [|[k' v'] r IH]; simpl; [discriminate|].
  destruct (String.eqb k k') eqn:E.
  - intros H. injection H as <-. apply String.eqb_eq in E. subst. left. reflexivity.
  - intros H. right. exact (IH H).
Qed.

Lemma In_dict_set {V} (p : string * V) (k : string) (v : V) (d : dict V) :
  In p (dict_set k v d) -> p = (k, v) \/ In p d.
Proof.
  induction d as [|[k' v'] r IH]; simpl.
  - intros [H|[]]. left. symmetry. exact H.
  - destruct (String.eqb k k'); simpl.
    + intros [H|H]; [left; symmetry; exact H | right; right; exact H].
    + intros [H|H]; [right; left; exact H|].
      destruct (IH H) as [H'|H']; [left; exact H' | right; right; exact H'].
Qed.

Lemma In_dict_update {V} (p : string * V) (d e : dict V) :
  In p (dict_update d e) -> In p d \/ In p e.
Proof.
  unfold dict_update. revert d.
  induction e as [|[k v] r IH]; intros d H; simpl in *; [left; exact H|].
  destruct (IH _ H) as [H'|H']; [|right; right; exact H'].
  apply In_dict_set in H' as [H'|H']; [right; left; symmetry; exact H' | left; exact H'].
Qed.

Lemma dict_mem_set {V} (j k : string) (v : V) (d : dict V) :
  dict_mem j d = true -> dict_mem j (dict_set k v d) = true.
Proof.
  unfold dict_mem. destruct (String.eqb j k) eqn:E.
  - apply String.eqb_eq in E. subst. rewrite dict_get_set_eq. reflexivity.
  - apply String.eqb_neq in E. rewrite dict_get_set_neq by exact E. exact (fun H => H).
Qed.

Module TSFacts.
Import TS TSRun.

Lemma clean_value_good (raw v : string) : _clean_value (Some raw) = Some v -> good_value v.
Proof.
  intros H. split; [exists raw; exact H|].
  unfold _clean_value in H.
  destruct (String.eqb _ "" || String.eqb _ "-") eqn:E; [discriminate|].
  injection H as <-. apply orb_false_iff in E as [E1 E2].
  split; apply String.eqb_neq; assumption.
Qed.

Lemma row_data_good (row : dict (option string)) (j v : string) :
  In (j, v) (row_data row) -> good_value v.
Proof.
  unfold row_data.
  assert (G : forall acc : dict string,
             (forall j v, In (j, v) acc -> good_value v) ->
             forall j v, In (j, v) (fold_left (fun d kv =>
               if existsb (String.eqb (fst kv)) core_fields then d
               else match _clean_value (snd kv) with
                    | Some cv => dict_set (fst kv) cv d
                    | None => d
                    end) row acc) -> good_value v).
  { induction row as [|[k o] rest IH]; intros acc Hacc; cbn [fold_left fst snd]; [exact Hacc|].
    apply IH. destruct (existsb (String.eqb k) core_fields); [exact Hacc|].
    destruct (_clean_value o) as [cv|] eqn:Ec; [|exact Hacc].
    intros j' v' Hin. apply In_dict_set in Hin as [Hin|Hin]; [|exact (Hacc _ _ Hin)].
    injection Hin as -> ->. destruct o as [raw|]; [|discriminate].
    exact (clean_value_good raw cv Ec). }
  apply G. intros j' v' [].
Qed.

Lemma read_row_good (fns : list string) (r : RawRow) (u : RowUpdate) :
  read_row fns r = Ok (Some u) -> forall j v, In (j, v) (u_data u) -> good_value v.
Proof.
  unfold read_row. destruct (row_extra r); [|discriminate].
  destruct (_get_stock_key _) as [[key|]|]; simpl; try discriminate.
  destruct (get_clean _ "Stock"); [|discriminate].
  intros H. injection H as <-. simpl. apply row_data_good.
Qed.

Lemma apply_update_ok (fname : string) (u : RowUpdate) (st : Service) :
  (forall j v, In (j, v) (u_data u) -> good_value v) ->
  data_ok st -> data_ok (apply_update fname u st).
Proof.
  intros Hu Hst k s Hin. unfold apply_update in Hin. simpl in Hin.
  destruct (dict_get (u_key u) (stocks st)) as [e|] eqn:Eg;
    apply In_dict_set in Hin as [Hin|Hin]; try exact (Hst _ _ Hin);
    injection Hin as -> ->; simpl.
  - intros j v Hj. apply In_dict_update in Hj as [Hj|Hj]; [|exact (Hu _ _ Hj)].
    exact (Hst _ _ (dict_get_In _ _ _ Eg) _ _ Hj).
  - exact Hu.
Qed.

Lemma process_rows_ok (fname : string) (fns : list string) (rows : list RawRow) (st : Service) :
  data_ok st -> data_ok (fst (process_rows fname fns rows st)).
Proof.
  revert st. induction rows as [|r rest IH]; intros st Hst; simpl; [exact Hst|].
  destruct (read_row fns r) as [[u|]|] eqn:E; simpl; [| apply IH; exact Hst | exact Hst].
  apply IH. apply apply_update_ok; [|exact Hst].
  exact (read_row_good _ _ _ E).
Qed.

Lemma load_csv_file_ok (f : CsvFile) (st : Service) :
  data_ok st -> data_ok (fst (_load_csv_file f st)).
Proof.
  intros Hst. unfold _load_csv_file.
  destruct (contents f) as [[header records]|]; [|exact Hst].
  pose proof (process_rows_ok (file_name f) (map clean_key header)
                (reader_rows (map clean_key header) records) st Hst) as H1.
  destruct (process_rows _ _ _ st) as [st1 raised1]. simpl in H1.
  destruct raised1; [apply process_rows_ok|]; exact H1.
Qed.

Lemma load_all_files_ok (force : bool) (files : list CsvFile) (st : Service) :
  data_ok st -> data_ok (fst (load_all_files force files st)).
Proof.
  revert st. induction files as [|f rest IH]; intros st Hst; simpl; [exact Hst|].
  destruct (negb force && _); [apply IH; exact Hst|].
  pose proof (load_csv_file_ok f st Hst) as H1.
  destruct (_load_csv_file f st) as [st1 raised]. simpl in H1.
  destruct raised; [apply IH; exact H1|].
  pose proof (IH (add_loaded (file_name f) st1) H1) as H2.
  destruct (load_all_files force rest _) as [st2 n]. exact H2.
Qed.

Lemma exec_op_ok (st : Service) (op : Op) : data_ok st -> data_ok (exec_op st op).
Proof.
  intros Hst. destruct op as [force fs|fs|fs]; simpl.
  - apply load_all_files_ok. exact Hst.
  - unfold refresh_data.
    pose proof (load_all_files_ok true fs st Hst) as H.
    destruct (load_all_files true fs st) as [st' n]. exact H.
  - destruct (loaded_files st); simpl; [apply load_all_files_ok|]; exact Hst.
Qed.

Lemma init_ok : data_ok init.
Proof. intros k s []. Qed.

(** C10: after any sequence of loads, refreshes and reads starting from the
    fresh service, every value of every stock's [data] map is a value
    returned by [_clean_value]: a string (never [None]) that is neither
    empty nor ["-"]. *)
Theorem data_values_clean (ops : list Op) (k : string) (s : TrendlyneStock) (j v : string) :
  In (k, s) (stocks (run ops init)) -> In (j, v) (data s) ->
  (exists raw, _clean_value (Some raw) = Some v) /\ v <> "" /\ v <> "-".
Proof.
  intros Hk Hj.
  assert (H : forall ops st, data_ok st -> data_ok (run ops st)).
  { unfold run. induction ops0 as [|op rest IH]; intros st Hst; simpl; [exact Hst|].
    apply IH. apply exec_op_ok. exact Hst. }
  exact (H ops init init_ok k s Hk j v Hj).
Qed.

(** The stock loaded from [later_file]. *)
Lemma data_values_clean_witness :
  In ("NSE:XX", {| stock := "X"; nse_code := Some "XX"; bse_code := None; isin := None;
                   data := [("ROE Ann  %", "20")]; source_files := ["b.csv"];
                   last_updated := Some 0%nat |})
     (stocks (run [OpLoadAll false [Samples.later_file]] init))
  /\ (exists raw, _clean_value (Some raw) = Some "20") /\ "20" <> "" /\ "20" <> "-".
Proof.
  assert (Hk : In ("NSE:XX", {| stock := "X"; nse_code := Some "XX"; bse_code := None;
                                isin := None; data := [("ROE Ann  %", "20")];
                                source_files := ["b.csv"]; last_updated := Some 0%nat |})
                  (stocks (run [OpLoadAll false [Samples.later_file]] init)))
    by (vm_compute; left; reflexivity).
  split; [exact Hk|].
  apply (data_values_clean _ _ _ "ROE Ann  %" "20" Hk). simpl. left. reflexivity.
Defined.

(** *** [refresh_data] *)

Lemma apply_update_mem (k fname : string) (u : RowUpdate) (st : Service) :
  dict_mem k (stocks st) = true -> dict_mem k (stocks (apply_update fname u st)) = true.
Proof.
  intros H. unfold apply_update. simpl.
  destruct (dict_get (u_key u) (stocks st)); apply dict_mem_set; exact H.
Qed.

Lemma process_rows_mem (k fname : string) (fns : list string) (rows : list RawRow) (st : Service) :
  dict_mem k (stocks st) = true ->
  dict_mem k (stocks (fst (process_rows fname fns rows st))) = true.
Proof.
  revert st. induction rows as [|r rest IH]; intros st H; simpl; [exact H|].
  destruct (read_row fns r) as [[u|]|]; simpl; [| apply IH; exact H | exact H].
  apply IH. apply apply_update_mem. exact H.
Qed.

Lemma load_csv_file_mem (k : string) (f : CsvFile) (st : Service) :
  dict_mem k (stocks st) = true -> dict_mem k (stocks (fst (_load_csv_file f st))) = true.
Proof.
  intros H. unfold _load_csv_file.
  destruct (contents f) as [[header records]|]; [|exact H].
  pose proof (process_rows_mem k (file_name f) (map clean_key header)
                (reader_rows (map clean_key header) records) st H) as H1.
  destruct (process_rows _ _ _ st) as [st1 raised1]. simpl in H1.
  destruct raised1; [apply process_rows_mem|]; exact H1.
Qed.

Lemma load_all_files_mem (k : string) (force : bool) (files : list CsvFile) (st : Service) :
  dict_mem k (stocks st) = true ->
  dict_mem k (stocks (fst (load_all_files force files st))) = true.
Proof.
  revert st. induction files as [|f rest IH]; intros st H; simpl; [exact H|].
  destruct (negb force && _); [apply IH; exact H|].
  pose proof (load_csv_file_mem k f st H) as H1.
  destruct (_load_csv_file f st) as [st1 raised]. simpl in H1.
  destruct raised; [apply IH; exact H1|].
  pose proof (IH (add_loaded (file_name f) st1) H1) as H2.
  destruct (load_all_files force rest _) as [st2 n]. exact H2.
Qed.

(** C4 (counterexample): a company loaded earlier from [later_file]
    survives a refresh whose only current file is [other_file], although
    parsing the current files gives only the company of [other_file]. *)
Lemma refresh_keeps_stale_stock :
  let st := fst (load_all_files false [Samples.later_file] init) in
  map fst (stocks (fst (refresh_data [Samples.other_file] st))) = ["NSE:XX"; "NSE:ZZ"]
  /\ map fst (stocks (fst (load_all_files true [Samples.other_file] init))) = ["NSE:ZZ"].
Proof. vm_compute. split; reflexivity. Qed.

(** C4 (amended): [refresh_data] does not clear the collection: it is
    [load_all_files(force_reload=True)] on the current state, which merges
    the rows of every current file into the existing stocks, so every key
    present before the refresh is still present after it; it reports the
    number of files loaded, the counts before and after, their difference
    and the number of files recorded as loaded. *)
Theorem refresh_data_merges (csv_files : list CsvFile) (st : Service) :
  let '(st', r) := refresh_data csv_files st in
  st' = fst (load_all_files true csv_files st)
  /\ (forall k, dict_mem k (stocks st) = true -> dict_mem k (stocks st') = true)
  /\ files_loaded r = snd (load_all_files true csv_files st)
  /\ stocks_before r = length (stocks st)
  /\ stocks_after r = length (stocks st')
  /\ stocks_added r = (Z.of_nat (stocks_after r) - Z.of_nat (stocks_before r))%Z
  /\ total_files_processed r = length (loaded_files st').
Proof.
  unfold refresh_data.
  pose proof (fun k => load_all_files_mem k true csv_files st) as Hmem.
  destruct (load_all_files true csv_files st) as [st' n]. simpl in Hmem |- *.
  repeat split; auto.
Qed.

(** *** Loading twice *)











(** *** Deduplication *)

(** C3 (amended): when a row of a key already loaded brings both Trendlyne
    scores and the stock kept so far lacks one, [load_stocks] keeps the new
    stock as a whole, so the fields only the earlier row had are not kept;
    [_process_csv_rows] instead merges a row into the stock of its key, and
    every [data] field that the new row does not supply keeps its value. *)
Theorem dedup_replaces_whole_stock :
  (forall (stocks_by_key : dict QS.QualityStock) (stock existing : QS.QualityStock),
     QS.stock_key stock <> "" ->
     dict_get (QS.stock_key stock) stocks_by_key = Some existing ->
     QS.durability_score (QS.metrics stock) <> None ->
     QS.valuation_score (QS.metrics stock) <> None ->
     QS.durability_score (QS.metrics existing) = None
     \/ QS.valuation_score (QS.metrics existing) = None ->
     dict_get (QS.stock_key stock) (QS.merge_stock stocks_by_key stock) = Some stock)
  /\ (forall (file_name : string) (u : RowUpdate) (st : Service) (existing : TrendlyneStock)
             (j v : string),
        dict_get (u_key u) (stocks st) = Some existing ->
        dict_get j (data existing) = Some v ->
        dict_get j (u_data u) = None ->
        exists merged, dict_get (u_key u) (stocks (apply_update file_name u st)) = Some merged
                       /\ dict_get j (data merged) = Some v).
Proof.
  split.
  - intros d s e Hk He Hd Hv Hmiss. unfold QS.merge_stock.
    apply String.eqb_neq in Hk. rewrite Hk, He.
    destruct (QS.durability_score (QS.metrics s)); [|contradiction].
    destruct (QS.valuation_score (QS.metrics s)); [|contradiction].
    destruct Hmiss as [Hm|Hm]; rewrite Hm; simpl;
      [|rewrite orb_true_r]; apply dict_get_set_eq.
  - intros fname u st e j v He Hj Hu. unfold apply_update. simpl. rewrite He.
    eexists. split; [apply dict_get_set_eq|]. simpl.
    rewrite dict_get_update_notin by exact Hu. exact Hj.
Qed.

End TSFacts.

(** ** Further properties *)

(** *** Generic lemmas *)

Section SortAny.
Variable A : Type.
Variable lt : A -> A -> bool.

Lemma insert_desc_perm_any (x : A) (l : list A) : Permutation (insert_desc lt x l) (x :: l).
Proof.
  induction l as [|y r IH]; simpl; [reflexivity|].
  destruct (lt y x); [reflexivity|].
  rewrite IH. apply perm_swap.
Qed.

Lemma sort_desc_perm_any (l : list A) : Permutation (sort_desc lt l) l.
Proof.
  unfold sort_desc.
  assert (H : forall acc, Permutation (fold_left (fun acc x => insert_desc lt x acc) l acc)
                                      (l ++ acc)).
  { induction l as [|x r IH]; intros acc; simpl; [reflexivity|].
    rewrite IH, insert_desc_perm_any. symmetry. apply Permutation_middle. }
  rewrite H, app_nil_r. reflexivity.
Qed.

Lemma sort_desc_In (x : A) (l : list A) : In x (sort_desc lt l) <-> In x l.
Proof.
  split; apply Permutation_in; [|symmetry]; apply sort_desc_perm_any.
Qed.

End SortAny.

Lemma existsb_eqb_In (x : string) (l : list string) :
  existsb (String.eqb x) l = true <-> In x l.
Proof.
  rewrite existsb_exists. split.
  - intros [y [Hy He]]. apply String.eqb_eq in He. subst. exact Hy.
  - intros H. exists x. split; [exact H | apply String.eqb_refl].
Qed.

Module TQFacts.
Import TS TQ.

Lemma filter_map_In {A B} (f : A -> option B) (l : list A) (y : B) :
  In y (filter_map f l) <-> exists x, In x l /\ f x = Some y.
Proof.
  induction l as [|x r IH]; simpl.
  - split; [intros [] | intros [x [[] _]]].
  - destruct (f x) as [z|] eqn:E; simpl; rewrite IH; split.
    + intros [<- | [x' [Hx' He]]]; [exists x; auto | exists x'; auto].
    + intros [x' [[<- | Hx'] He]]; [left; congruence | right; exists x'; auto].
    + intros [x' [Hx' He]]. exists x'. auto.
    + intros [x' [[<- | Hx'] He]]; [congruence | exists x'; auto].
Qed.

Ltac entry_inv H :=
  match type of H with
  | ?e ?s = Some ?q =>
      unfold e in H;
      destruct (_check_positive_quarters s);
      destruct (_check_valuation s) as [[[? ?] ?] ?];
      cbv zeta in H;
      match type of H with
      | (if ?c then _ else _) = _ => destruct c; [injection H as <-; split; reflexivity | discriminate]
      end
  end.

Lemma great_entry_base (s : TrendlyneStock) (q : QualityFilteredStock) :
  great_entry s = Some q -> base q = s /\ quality_tier q = GREAT.
Proof. intros H. entry_inv H. Qed.

Lemma medium_entry_base (s : TrendlyneStock) (q : QualityFilteredStock) :
  medium_entry s = Some q -> base q = s /\ quality_tier q = MEDIUM.
Proof. intros H. entry_inv H. Qed.

Lemma good_entry_base (s : TrendlyneStock) (q : QualityFilteredStock) :
  good_entry s = Some q -> base q = s /\ quality_tier q = GOOD.
Proof. intros H. entry_inv H. Qed.

Lemma get_all_stocks_loaded (csv_files : list CsvFile) (st : Service) :
  loaded_files st <> [] -> get_all_stocks csv_files st = (st, map snd (stocks st)).
Proof.
  intros H. unfold get_all_stocks. destruct (loaded_files st); [congruence | reflexivity].
Qed.

(** A missing promoter-holding change counts as no change. *)
Lemma promoter_missing (s : TrendlyneStock) :
  dict_get "Promoter holding change QoQ %" (data s) = None -> _check_promoter_holding_stable s = true.
Proof.
  intros H. unfold _check_promoter_holding_stable, _get_value, data_get. rewrite H. reflexivity.
Qed.

(** A stock passing the promoter check always passes the Good gate. *)
Lemma good_entry_promoter (s : TrendlyneStock) :
  _check_promoter_holding_stable s = true -> exists q, good_entry s = Some q.
Proof.
  intros H. unfold good_entry.
  destruct (_check_positive_quarters s). destruct (_check_valuation s) as [[[? ?] ?] ?].
  cbv zeta. rewrite H. cbn [orb Nat.b2n]. rewrite Nat.add_1_r. cbn [Nat.leb orb].
  eexists. reflexivity.
Qed.

Section Loaded.
Variable csv_files : list CsvFile.
Variable st : Service.
Hypothesis Hloaded : loaded_files st <> [].

Let all_stocks := map snd (stocks st).
Let key_of (q : QualityFilteredStock) := _get_stock_key (base q).
Let great := sort_desc by_quality (filter_map great_entry all_stocks).
Let medium := sort_desc by_quality
  (filter_map (fun s => if key_in (_get_stock_key s) (map key_of great) then None
                        else medium_entry s) all_stocks).
Let good := sort_desc by_quality
  (filter_map (fun s => if key_in (_get_stock_key s) (map key_of great)
                           || key_in (_get_stock_key s) (map key_of medium) then None
                        else good_entry s) all_stocks).

Lemma great_loaded : filter_great_quality_stocks csv_files st = (st, great).
Proof. unfold filter_great_quality_stocks. rewrite get_all_stocks_loaded by exact Hloaded. reflexivity. Qed.

Lemma medium_loaded : filter_medium_quality_stocks csv_files st = (st, medium).
Proof.
  unfold filter_medium_quality_stocks. rewrite get_all_stocks_loaded by exact Hloaded.
  cbv beta iota. rewrite great_loaded. reflexivity.
Qed.

Lemma good_loaded : filter_good_quality_stocks csv_files st = (st, good).
Proof.
  unfold filter_good_quality_stocks. rewrite get_all_stocks_loaded by exact Hloaded.
  cbv beta iota. rewrite great_loaded. cbv beta iota. rewrite medium_loaded. reflexivity.
Qed.

Lemma all_loaded : get_all_quality_stocks None csv_files st = (st, (great ++ medium ++ good)%list).
Proof.
  unfold get_all_quality_stocks. rewrite great_loaded. cbv beta iota.
  rewrite medium_loaded. cbv beta iota. rewrite good_loaded. reflexivity.
Qed.

Lemma in_great (q : QualityFilteredStock) :
  In q great <-> exists s, In s all_stocks /\ great_entry s = Some q.
Proof. unfold great. rewrite sort_desc_In. apply filter_map_In. Qed.

Lemma in_medium (q : QualityFilteredStock) :
  In q medium <-> exists s, In s all_stocks /\ key_in (_get_stock_key s) (map key_of great) = false
                            /\ medium_entry s = Some q.
Proof.
  unfold medium. rewrite sort_desc_In, filter_map_In. split.
  - intros [s [Hs He]]. exists s. destruct (key_in _ _); [discriminate|]. auto.
  - intros [s [Hs [Hk He]]]. exists s. rewrite Hk. auto.
Qed.

Lemma in_good (q : QualityFilteredStock) :
  In q good <-> exists s, In s all_stocks /\ key_in (_get_stock_key s) (map key_of great) = false
                          /\ key_in (_get_stock_key s) (map key_of medium) = false
                          /\ good_entry s = Some q.
Proof.
  unfold good. rewrite sort_desc_In, filter_map_In. split.
  - intros [s [Hs He]]. exists s.
    destruct (key_in _ (map key_of great)), (key_in _ (map key_of medium)); try discriminate.
    auto.
  - intros [s [Hs [Hk1 [Hk2 He]]]]. exists s. rewrite Hk1, Hk2. auto.
Qed.

Lemma key_in_map (q : QualityFilteredStock) (l : list QualityFilteredStock) :
  In q l -> key_in (key_of q) (map key_of l) = true.
Proof. intros H. unfold key_in. apply existsb_eqb_In. apply in_map. exact H. Qed.

Lemma key_in_map_inv (k : string) (l : list QualityFilteredStock) :
  key_in k (map key_of l) = true -> exists q, In q l /\ key_of q = k.
Proof.
  unfold key_in. rewrite existsb_eqb_In, in_map_iff. intros [q [Hq Hin]]. eauto.
Qed.

Lemma covered (s : TrendlyneStock) :
  In s all_stocks -> _check_promoter_holding_stable s = true ->
  exists q, In q (great ++ medium ++ good)%list /\ key_of q = _get_stock_key s.
Proof.
  intros Hs Hp.
  destruct (great_entry s) as [q|] eqn:Eg.
  { exists q. split; [apply in_or_app; left; apply in_great; eauto|].
    apply great_entry_base in Eg as [Eb _]. unfold key_of. rewrite Eb. reflexivity. }
  destruct (key_in (_get_stock_key s) (map key_of great)) eqn:Kg.
  { apply key_in_map_inv in Kg as [q [Hq Hk]]. exists q.
    split; [apply in_or_app; left; exact Hq | exact Hk]. }
  destruct (medium_entry s) as [q|] eqn:Em.
  { exists q. split; [apply in_or_app; right; apply in_or_app; left; apply in_medium; eauto|].
    apply medium_entry_base in Em as [Eb _]. unfold key_of. rewrite Eb. reflexivity. }
  destruct (key_in (_get_stock_key s) (map key_of medium)) eqn:Km.
  { apply key_in_map_inv in Km as [q [Hq Hk]]. exists q.
    split; [apply in_or_app; right; apply in_or_app; left; exact Hq | exact Hk]. }
  destruct (good_entry_promoter s Hp) as [q Eq]. exists q.
  split; [apply in_or_app; right; apply in_or_app; right; apply in_good; exists s; auto|].
  apply good_entry_base in Eq as [Eb _]. unfold key_of. rewrite Eb. reflexivity.
Qed.

End Loaded.


Lemma add_first_ok (score : flt) (chain : list (bool * Q)) :
  tq_score_ok score -> Forall (fun c => 0 <= snd c) chain -> tq_score_ok (add_first score chain).
Proof.
  intros Hs Hc. induction Hc as [|[c p] rest Hp Hr IH]; simpl; [exact Hs|].
  destruct c; [|exact IH].
  destruct score as [q| [|] |]; simpl in *; try contradiction; try discriminate; auto.
  simpl in Hp. lra.
Qed.

Lemma add_index_ok (score : flt) (x : option flt) :
  tq_score_ok score -> tq_index_ok x -> tq_score_ok (add_index score x).
Proof.
  intros Hs Hx. destruct x as [x|]; [|exact Hs]. simpl in Hx |- *.
  destruct x as [d| [|] |]; simpl in Hx; try discriminate; try contradiction.
  - unfold flt_div, fZ. change (Qeq_bool (inject_Z 100) 0) with false. cbv iota.
    unfold flt_mul. change (inject_Z 100) with (100 # 1). change (inject_Z 10) with (10 # 1).
    destruct score as [q| [|] |]; simpl in *; try contradiction; try discriminate; auto.
    assert (0 <= d / (100 # 1)) by (apply Qle_shift_div_l; [reflexivity | lra]).
    lra.
  - destruct score as [q| [|] |]; simpl in *; try contradiction; try discriminate; reflexivity.
Qed.

Lemma py_min_ok (x : flt) :
  tq_score_ok x -> exists q, py_min x (Fin 100) = Fin q /\ 0 <= q /\ q <= 100.
Proof.
  unfold py_min. destruct x as [q| [|] |]; simpl; intros H; try contradiction; try discriminate.
  - destruct (Qlt_bool 100 q) eqn:E.
    + exists 100. split; [reflexivity | lra].
    + apply Qlt_bool_false in E. exists q. auto.
  - exists 100. split; [reflexivity | lra].
Qed.

Ltac chain_ok := repeat (apply Forall_cons; [simpl; lra|]); apply Forall_nil.

(** The quality score of the Trendlyne tiers lies between 0 and 100 when
    each Trendlyne index score is absent or not negative. *)
Theorem tq_quality_score_range (s : TrendlyneStock) (roe roce debt_equity : flt)
  (interest_coverage current_ratio : flt) (durability_score valuation_score : option flt) :
  tq_index_ok durability_score -> tq_index_ok valuation_score ->
  exists q, _calculate_quality_score s roe roce debt_equity interest_coverage current_ratio
              durability_score valuation_score = Fin q
            /\ 0 <= q /\ q <= 100.
Proof.
  intros Hd Hv. unfold _calculate_quality_score. cbv zeta.
  apply py_min_ok.
  apply add_first_ok; [|chain_ok]. apply add_first_ok; [|chain_ok].
  apply add_index_ok; [|exact Hv]. apply add_index_ok; [|exact Hd].
  apply add_first_ok; [|chain_ok]. apply add_first_ok; [|chain_ok].
  apply add_first_ok; [|chain_ok]. apply add_first_ok; [|chain_ok].
  apply add_first_ok; [|chain_ok]. simpl. lra.
Qed.

Lemma tq_quality_score_range_witness :
  tq_index_ok (Some (Fin 80)) /\ tq_index_ok None
  /\ exists q, _calculate_quality_score sample_stock (Fin 25) (Fin 28) (Fin 0)
                 (Fin 15) (Fin 2.5) (Some (Fin 80)) None = Fin q /\ 0 <= q /\ q <= 100.
Proof.
  assert (Hd : tq_index_ok (Some (Fin 80))) by (simpl; lra).
  assert (Hv : tq_index_ok None) by exact I.
  split; [exact Hd|]. split; [exact Hv|].
  apply (tq_quality_score_range _ _ _ _ _ _ _ _ Hd Hv).
Defined.

(** The three tiers of [get_all_quality_stocks()] once a file has been
    loaded: each entry is built from a stock of the store and carries its
    tier, and no [_get_stock_key] value appears in two tiers. *)
Theorem quality_tiers_disjoint (csv_files : list CsvFile) (st : Service) :
  loaded_files st <> [] ->
  exists great medium good,
    get_all_quality_stocks None csv_files st = (st, (great ++ medium ++ good)%list)
    /\ Forall (fun q => quality_tier q = GREAT /\ In (base q) (map snd (stocks st))) great
    /\ Forall (fun q => quality_tier q = MEDIUM /\ In (base q) (map snd (stocks st))) medium
    /\ Forall (fun q => quality_tier q = GOOD /\ In (base q) (map snd (stocks st))) good
    /\ (forall a b, In a great -> In b medium ->
                    _get_stock_key (base a) <> _get_stock_key (base b))
    /\ (forall a b, In a (great ++ medium)%list -> In b good ->
                    _get_stock_key (base a) <> _get_stock_key (base b)).
Proof.
  intros Hl. do 3 eexists. split; [apply (all_loaded csv_files st Hl)|].
  repeat split.
  - apply Forall_forall. intros q Hq. apply in_great in Hq as [s [Hs He]].
    apply great_entry_base in He as [Eb Et]. rewrite Eb. auto.
  - apply Forall_forall. intros q Hq. apply in_medium in Hq as [s [Hs [_ He]]].
    apply medium_entry_base in He as [Eb Et]. rewrite Eb. auto.
  - apply Forall_forall. intros q Hq. apply in_good in Hq as [s [Hs [_ [_ He]]]].
    apply good_entry_base in He as [Eb Et]. rewrite Eb. auto.
  - intros a b Ha Hb Heq. apply in_medium in Hb as [s [Hs [Hk He]]].
    apply medium_entry_base in He as [Eb _]. rewrite Eb in Heq. rewrite <- Heq in Hk.
    rewrite key_in_map in Hk by exact Ha. discriminate.
  - intros a b Ha Hb Heq. apply in_good in Hb as [s [Hs [Hk1 [Hk2 He]]]].
    apply good_entry_base in He as [Eb _]. rewrite Eb in Heq. rewrite <- Heq in Hk1, Hk2.
    apply in_app_or in Ha as [Ha|Ha];
      [rewrite key_in_map in Hk1 by exact Ha | rewrite key_in_map in Hk2 by exact Ha];
      discriminate.
Qed.


Lemma quality_tiers_disjoint_witness :
  loaded_files sample_state <> []
  /\ exists great medium good,
       get_all_quality_stocks None [] sample_state = (sample_state, (great ++ medium ++ good)%list).
Proof.
  assert (Hl : loaded_files sample_state <> []) by (vm_compute; discriminate).
  split; [exact Hl|].
  destruct (quality_tiers_disjoint [] sample_state Hl) as [g [m [d [H _]]]].
  exists g, m, d. exact H.
Defined.

(** Every stock of the store whose promoter-holding change is missing or
    passes [_check_promoter_holding_stable] is rated by
    [get_all_quality_stocks()]: the result holds an entry with its key. *)
Theorem every_stock_rated (csv_files : list CsvFile) (st : Service) (k : string)
  (s : TrendlyneStock) :
  loaded_files st <> [] -> In (k, s) (stocks st) ->
  dict_get "Promoter holding change QoQ %" (data s) = None
  \/ _check_promoter_holding_stable s = true ->
  exists q, In q (snd (get_all_quality_stocks None csv_files st))
            /\ _get_stock_key (base q) = _get_stock_key s.
Proof.
  intros Hl Hin Hp.
  assert (Hp' : _check_promoter_holding_stable s = true)
    by (destruct Hp as [Hp|Hp]; [apply promoter_missing|]; exact Hp).
  rewrite (all_loaded csv_files st Hl). simpl snd.
  apply covered; [|exact Hp'].
  apply in_map_iff. exists (k, s). auto.
Qed.

Lemma every_stock_rated_witness :
  loaded_files sample_state <> []
  /\ exists q, In q (snd (get_all_quality_stocks None [] sample_state))
               /\ _get_stock_key (base q) = "NSE:XX".
Proof.
  assert (Hl : loaded_files sample_state <> []) by (vm_compute; discriminate).
  split; [exact Hl|].
  assert (Hin : In ("NSE:XX", sample_stock) (stocks sample_state)) by (vm_compute; left; reflexivity).
  assert (Hp : dict_get "Promoter holding change QoQ %" (data sample_stock) = None
               \/ _check_promoter_holding_stable sample_stock = true) by (left; reflexivity).
  destruct (every_stock_rated [] sample_state _ _ Hl Hin Hp) as [q [Hq Hk]].
  exists q. split; [exact Hq|]. rewrite Hk. reflexivity.
Defined.

End TQFacts.

Lemma In_keys_set {V} (j k : string) (v : V) (d : dict V) :
  In j (map fst (dict_set k v d)) -> j = k \/ In j (map fst d).
Proof.
  rewrite !in_map_iff. intros [[j' v'] [Hj Hin]]. simpl in Hj. subst j'.
  apply In_dict_set in Hin as [Hin|Hin]; [injection Hin as -> _; left; reflexivity|].
  right. exists (j, v'). auto.
Qed.

Lemma dict_set_nodup {V} (k : string) (v : V) (d : dict V) :
  NoDup (map fst d) -> NoDup (map fst (dict_set k v d)).
Proof.
  induction d as [|[k' v'] r IH]; simpl; intros H.
  - repeat constructor. intros [].
  - inversion H as [|x l Hx Hr]; subst.
    destruct (String.eqb k k') eqn:E; simpl.
    + apply String.eqb_eq in E. subst. constructor; assumption.
    + constructor; [|exact (IH Hr)].
      intros Hin. apply In_keys_set in Hin as [Hin|Hin]; [|contradiction].
      subst. rewrite String.eqb_refl in E. discriminate.
Qed.

Module QSMore.
Import QS.

Lemma keyed_set (k : string) (s : QualityStock) (d : dict QualityStock) :
  qs_keyed d -> k = stock_key s -> k <> "" -> qs_keyed (dict_set k s d).
Proof.
  intros [Hn Hf] Hk Hne. split; [apply dict_set_nodup; exact Hn|].
  apply Forall_forall. intros p Hp. apply In_dict_set in Hp as [->|Hp]; [auto|].
  rewrite Forall_forall in Hf. exact (Hf p Hp).
Qed.

Lemma merge_stock_keyed (d : dict QualityStock) (s : QualityStock) :
  qs_keyed d -> qs_keyed (merge_stock d s).
Proof.
  intros H. unfold merge_stock.
  destruct (String.eqb (stock_key s) "") eqn:E; [exact H|].
  apply String.eqb_neq in E.
  destruct (dict_get (stock_key s) d); [destruct (_ && _)|];
    solve [exact H | apply keyed_set; auto].
Qed.

Lemma load_file_keyed (d : dict QualityStock) (f : CsvFile) :
  qs_keyed d -> qs_keyed (load_file d f).
Proof.
  unfold load_file. destruct (contents f) as [[fields records]|]; [|auto].
  generalize (reader_rows fields records). intros rows. revert d.
  induction rows as [|r rest IH]; intros d H; simpl; [exact H|].
  apply IH. destruct (parse_row (row_dict r)); [apply merge_stock_keyed|]; exact H.
Qed.

(** [load_stocks] returns stocks with distinct, non-empty keys (ISIN, else
    NSE code). *)
Theorem load_stocks_unique_keys (csv_files : list CsvFile) (fallback : option CsvFile)
  (self_stocks : list QualityStock) :
  let stocks := fst (load_stocks csv_files fallback self_stocks) in
  NoDup (map stock_key stocks) /\ Forall (fun s => stock_key s <> "") stocks.
Proof.
  unfold load_stocks. cbv zeta.
  destruct (match csv_files with [] => _ | _ => csv_files end) as [|f fs];
    [simpl; split; constructor|].
  simpl fst.
  assert (H : qs_keyed (fold_left load_file fs (load_file [] f))).
  { assert (G : forall l d, qs_keyed d -> qs_keyed (fold_left load_file l d)).
    { induction l as [|g gs IH]; intros d Hd; simpl; [exact Hd|].
      apply IH, load_file_keyed, Hd. }
    apply G, load_file_keyed. split; constructor. }
  destruct H as [Hn Hf].
  assert (Hm : map stock_key (map snd (fold_left load_file fs (load_file [] f)))
               = map fst (fold_left load_file fs (load_file [] f))).
  { rewrite map_map. apply map_ext_in. intros p Hp.
    rewrite Forall_forall in Hf. symmetry. apply (Hf p Hp). }
  rewrite Hm. split; [exact Hn|].
  apply Forall_forall. intros s Hs. apply in_map_iff in Hs as [p [<- Hp]].
  rewrite Forall_forall in Hf. destruct (Hf p Hp) as [Hk Hne]. rewrite <- Hk. exact Hne.
Qed.

Lemma str_in_iff (x : string) (l : list string) : str_in x l = true <-> In x l.
Proof. apply existsb_eqb_In. Qed.

(** In the [/api/quality-stocks/all] route no stock of the Good list has
    the NSE code of a stock of the Great or the Aggressive list. *)
Theorem all_tiers_good_exclusive (csv_files : list CsvFile) (fallback : option CsvFile)
  (self_stocks : list QualityStock) :
  let '(great, aggressive, good) := all_tiers csv_files fallback self_stocks in
  forall a b, In a (great ++ aggressive)%list -> In b good -> nse_code a <> nse_code b.
Proof.
  unfold all_tiers.
  destruct (filter_great_quality_stocks csv_files fallback self_stocks) as [st1 great].
  destruct (filter_aggressive_quality_stocks csv_files fallback st1) as [st2 aggressive].
  unfold filter_medium_quality_stocks.
  destruct (tag_loop _ "Good" _) as [st3 sel] eqn:E.
  intros a b Ha Hb.
  apply sort_desc_In in Hb.
  assert (Hs : In b (snd (tag_loop (fun s => negb (str_in (nse_code s) (map nse_code great)
                                                   || str_in (nse_code s) (map nse_code aggressive))
                                              && good_gate s) "Good"
                              (rescore (ensure_loaded csv_files fallback st2)))))
    by (rewrite E; exact Hb).
  rewrite QSFacts.tag_loop_snd, in_map_iff in Hs.
  destruct Hs as [s [<- Hs]]. apply filter_In in Hs as [_ Hg].
  apply andb_true_iff in Hg as [Hg _]. apply negb_true_iff, orb_false_iff in Hg as [H1 H2].
  simpl. intros Heq. rewrite <- Heq in H1, H2.
  apply in_app_or in Ha as [Ha|Ha].
  - assert (str_in (nse_code a) (map nse_code great) = true)
      by (apply str_in_iff, in_map, Ha). congruence.
  - assert (str_in (nse_code a) (map nse_code aggressive) = true)
      by (apply str_in_iff, in_map, Ha). congruence.
Qed.

End QSMore.

Module QSStats.
Import QS.

Lemma fold_min_spec (r : list Z) (x : Z) :
  In (fold_left Z.min r x) (x :: r) /\ (forall y, In y (x :: r) -> (fold_left Z.min r x <= y)%Z).
Proof.
  revert x. induction r as [|a r IH]; intros x; simpl.
  - split; [left; reflexivity | intros y [<-|[]]; lia].
  - destruct (IH (Z.min x a)) as [Hin Hle]. split.
    + destruct Hin as [Hin|Hin]; [|right; right; exact Hin].
      rewrite <- Hin. destruct (Z.min_dec x a) as [E|E]; rewrite E; auto.
    + intros y [<-|[<-|Hy]].
      * specialize (Hle (Z.min x a) (or_introl eq_refl)). lia.
      * specialize (Hle (Z.min x a) (or_introl eq_refl)). lia.
      * apply Hle. right. exact Hy.
Qed.

Lemma fold_max_spec (r : list Z) (x : Z) :
  In (fold_left Z.max r x) (x :: r) /\ (forall y, In y (x :: r) -> (y <= fold_left Z.max r x)%Z).
Proof.
  revert x. induction r as [|a r IH]; intros x; simpl.
  - split; [left; reflexivity | intros y [<-|[]]; lia].
  - destruct (IH (Z.max x a)) as [Hin Hle]. split.
    + destruct Hin as [Hin|Hin]; [|right; right; exact Hin].
      rewrite <- Hin. destruct (Z.max_dec x a) as [E|E]; rewrite E; auto.
    + intros y [<-|[<-|Hy]].
      * specialize (Hle (Z.max x a) (or_introl eq_refl)). lia.
      * specialize (Hle (Z.max x a) (or_introl eq_refl)). lia.
      * apply Hle. right. exact Hy.
Qed.

Lemma fold_add_bounds (l : list Z) (lo hi acc : Z) :
  (forall y, In y l -> lo <= y <= hi)%Z ->
  (Z.of_nat (length l) * lo + acc <= fold_left Z.add l acc
   <= Z.of_nat (length l) * hi + acc)%Z.
Proof.
  revert acc. induction l as [|a l IH]; intros acc H; cbn [fold_left length]; [lia|].
  assert (Ha : (lo <= a <= hi)%Z) by (apply H; left; reflexivity).
  specialize (IH (acc + a)%Z (fun y Hy => H y (or_intror Hy))).
  rewrite Nat2Z.inj_succ, !Z.mul_succ_l. lia.
Qed.

Lemma insert_asc_perm (x : Z) (l : list Z) : Permutation (insert_asc x l) (x :: l).
Proof.
  induction l as [|y r IH]; simpl; [reflexivity|].
  destruct (x <=? y)%Z; [reflexivity|].
  rewrite IH. apply perm_swap.
Qed.

Lemma sorted_Z_perm (l : list Z) : Permutation (sorted_Z l) l.
Proof.
  induction l as [|x r IH]; simpl; [reflexivity|].
  rewrite insert_asc_perm, IH. reflexivity.
Qed.

Lemma Qround_half_even_ge (x : Q) (z : Z) : inject_Z z <= x -> (z <= Qround_half_even x)%Z.
Proof.
  intros Hx. unfold Qround_half_even.
  assert (Hf : (z <= Qfloor x)%Z).
  { rewrite <- (Qfloor_Z z). apply Qfloor_resp_le. exact Hx. }
  destruct (Qlt_bool _ (1 # 2)); [exact Hf|].
  destruct (Qlt_bool (1 # 2) _); [lia|].
  destruct (Z.even (Qfloor x)); lia.
Qed.

Lemma round2_between (q : Q) (a b : Z) :
  inject_Z a <= q -> q <= inject_Z b -> inject_Z a <= round2 q /\ round2 q <= inject_Z b.
Proof.
  intros Ha Hb. unfold round2.
  assert (Hr1 : (a * 100 <= Qround_half_even (q * 100))%Z).
  { apply Qround_half_even_ge. rewrite inject_Z_mult. change (inject_Z 100) with 100. lra. }
  assert (Hr2 : (Qround_half_even (q * 100) <= b * 100)%Z).
  { apply QSFacts.Qround_half_even_le. rewrite inject_Z_mult. change (inject_Z 100) with 100. lra. }
  rewrite Zle_Qle, inject_Z_mult in Hr1, Hr2. change (inject_Z 100) with 100 in Hr1, Hr2.
  split; [apply Qle_shift_div_l | apply Qle_shift_div_r]; try reflexivity; lra.
Qed.

Lemma score_stats_describes (xs : list Z) (d : ScoreStats) :
  score_stats xs = Some d -> describes xs d.
Proof.
  destruct xs as [|x r]; [discriminate|].
  assert (Hlt : (Nat.div (length (x :: r)) 2 < length (x :: r))%nat)
    by (apply Nat.div_lt; cbn [length]; lia).
  unfold score_stats. intros H. injection H as <-.
  destruct (fold_min_spec r x) as [Hmin Hmin'].
  destruct (fold_max_spec r x) as [Hmax Hmax'].
  assert (Hb : forall y, In y (x :: r) -> (fold_left Z.min r x <= y <= fold_left Z.max r x)%Z)
    by (intros y Hy; split; [apply Hmin' | apply Hmax']; exact Hy).
  unfold describes. cbn [st_min st_max st_median st_avg]. split; [exact Hmin|]. split; [exact Hmax|]. split; [exact Hb|].
  split.
  - apply (Permutation_in _ (sorted_Z_perm (x :: r))). apply nth_In.
    rewrite (Permutation_length (sorted_Z_perm (x :: r))).
    exact Hlt.
  - pose proof (fold_add_bounds (x :: r) _ _ 0 Hb) as Hs.
    simpl.
    set (n := Z.pos (Pos.of_succ_nat (length r))).
    change (fold_left Z.add (x :: r) 0%Z) with (fold_left Z.add r x) in Hs.
    change (Z.of_nat (length (x :: r))) with n in Hs.
    assert (Hn : (0 < n)%Z) by (unfold n; lia).
    assert (Hq : 0 < inject_Z n) by (change 0 with (inject_Z 0); rewrite <- Zlt_Qlt; exact Hn).
    apply round2_between.
    + apply Qle_shift_div_l; [exact Hq|].
      rewrite <- inject_Z_mult, <- Zle_Qle. lia.
    + apply Qle_shift_div_r; [exact Hq|].
      rewrite <- inject_Z_mult, <- Zle_Qle. lia.
Qed.

Lemma present_map (o : QualityStock -> option Z) (l : list QualityStock) :
  map (fun s => valz (o s)) (filter (fun s => is_some (o s)) l) = present o l.
Proof.
  induction l as [|s r IH]; simpl; [reflexivity|].
  destruct (o s) as [x|] eqn:E; simpl; rewrite ?E, IH; reflexivity.
Qed.

Lemma filter_length_le {A} (p q : A -> bool) (l : list A) :
  (forall x, p x = true -> q x = true) -> (length (filter p l) <= length (filter q l))%nat.
Proof.
  intros H. induction l as [|x r IH]; simpl; [lia|].
  destruct (p x) eqn:E; [rewrite (H x E); simpl; lia|].
  destruct (q x); simpl; lia.
Qed.

Lemma filter_length_all {A} (p : A -> bool) (l : list A) : (length (filter p l) <= length l)%nat.
Proof. induction l as [|x r IH]; simpl; [lia|]. destruct (p x); simpl; lia. Qed.

Lemma score_stats_none (xs : list Z) : score_stats xs = None <-> xs = [].
Proof. destruct xs; simpl; split; congruence. Qed.

(** [get_durability_valuation_stats]: the counts are nested (both scores,
    one score, all stocks); the durability entry is [None] exactly when no
    stock has a durability score, and otherwise its [min] and [max] are
    durability scores of stocks that bound all the others, its [median] is
    one of them and its [avg] lies between [min] and [max]; the same holds
    for the valuation entry. *)
Theorem durability_valuation_stats_spec (csv_files : list CsvFile) (fallback : option CsvFile)
  (self_stocks : list QualityStock) :
  let '(stocks, r) := get_durability_valuation_stats csv_files fallback self_stocks in
  stocks = ensure_loaded csv_files fallback self_stocks
  /\ total_stocks r = length stocks
  /\ (stocks_with_both_scores r <= stocks_with_durability_score r <= total_stocks r)%nat
  /\ (stocks_with_both_scores r <= stocks_with_valuation_score r <= total_stocks r)%nat
  /\ (durability r = None <-> stocks_with_durability_score r = 0%nat)
  /\ (valuation r = None <-> stocks_with_valuation_score r = 0%nat)
  /\ (forall d, durability r = Some d ->
                describes (present (fun s => durability_score (metrics s)) stocks) d)
  /\ (forall d, valuation r = Some d ->
                describes (present (fun s => valuation_score (metrics s)) stocks) d).
Proof.
  unfold get_durability_valuation_stats. cbv zeta. simpl.
  set (l := ensure_loaded csv_files fallback self_stocks).
  assert (Pd : map dur (filter (fun s => is_some (durability_score (metrics s))) l)
               = present (fun s => durability_score (metrics s)) l)
    by (apply (present_map (fun s => durability_score (metrics s)))).
  assert (Pv : map valn (filter (fun s => is_some (valuation_score (metrics s))) l)
               = present (fun s => valuation_score (metrics s)) l)
    by (apply (present_map (fun s => valuation_score (metrics s)))).
  split; [reflexivity|]. split; [reflexivity|].
  split; [split; [apply filter_length_le; intros x Hx; apply andb_true_iff in Hx; tauto
                 | apply filter_length_all]|].
  split; [split; [apply filter_length_le; intros x Hx; apply andb_true_iff in Hx; tauto
                 | apply filter_length_all]|].
  split; [rewrite score_stats_none, length_zero_iff_nil;
          split; [intros H; apply map_eq_nil in H; exact H | intros ->; reflexivity]|].
  split; [rewrite score_stats_none, length_zero_iff_nil;
          split; [intros H; apply map_eq_nil in H; exact H | intros ->; reflexivity]|].
  split; intros d Hd; apply score_stats_describes in Hd; [rewrite <- Pd | rewrite <- Pv]; exact Hd.
Qed.

Ltac split_bools :=
  repeat (match goal with
          | |- context [(?a <=? ?b)%Z] => destruct (Z.leb_spec a b)
          | |- context [(?a <? ?b)%Z] => destruct (Z.ltb_spec a b)
          end; try (exfalso; lia)).

Lemma buckets_partition (f : QualityStock -> Z) (l : list QualityStock) :
  (count_range f 0 20 false l + count_range f 20 40 false l + count_range f 40 60 false l
   + count_range f 60 80 false l + count_range f 80 100 true l)%nat
  = length (filter (fun s => (0 <=? f s)%Z && (f s <=? 100)%Z) l).
Proof.
  unfold count_range. induction l as [|s r IH]; [reflexivity|]. simpl filter.
  split_bools; simpl length; lia.
Qed.

(** The score ranges of [get_durability_valuation_stats] are present
    exactly when some stock has both scores; the five durability ranges
    then count, between them, each stock with both scores whose durability
    lies within [0, 100] exactly once, and likewise the five valuation
    ranges. *)
Theorem score_ranges_partition (csv_files : list CsvFile) (fallback : option CsvFile)
  (self_stocks : list QualityStock) :
  let '(stocks, r) := get_durability_valuation_stats csv_files fallback self_stocks in
  let both := filter (fun s => is_some (durability_score (metrics s))
                               && is_some (valuation_score (metrics s))) stocks in
  match score_ranges r with
  | None => stocks_with_both_scores r = 0%nat
  | Some rs =>
      stocks_with_both_scores r <> 0%nat
      /\ map fst rs = ["durability_0_20"; "durability_20_40"; "durability_40_60";
                       "durability_60_80"; "durability_80_100"; "valuation_0_20";
                       "valuation_20_40"; "valuation_40_60"; "valuation_60_80";
                       "valuation_80_100"]
      /\ list_sum (map snd (firstn 5 rs))
         = length (filter (fun s => (0 <=? dur s)%Z && (dur s <=? 100)%Z) both)
      /\ list_sum (map snd (skipn 5 rs))
         = length (filter (fun s => (0 <=? valn s)%Z && (valn s <=? 100)%Z) both)
  end.
Proof.
  unfold get_durability_valuation_stats. cbv zeta. simpl.
  destruct (filter _ (ensure_loaded csv_files fallback self_stocks)) as [|s r] eqn:E;
    [reflexivity|].
  rewrite <- E. simpl. split; [rewrite E; discriminate|]. split; [reflexivity|].
  rewrite <- !buckets_partition. split; lia.
Qed.

(** [find_and_rescore]: the first stock whose upper-cased NSE code is the
    one sought is rescored in place and returned; with no such stock the
    list is unchanged. *)
Lemma find_and_rescore_spec (u : string) (l : list QualityStock) :
  match find_and_rescore u l with
  | (l', Some s) =>
      exists pre s0 post, l = (pre ++ s0 :: post)%list
                          /\ Forall (fun x => py_upper (nse_code x) <> u) pre
                          /\ py_upper (nse_code s0) = u
                          /\ s = set_score s0 (calculate_quality_score s0)
                          /\ l' = (pre ++ s :: post)%list
  | (l', None) => l' = l /\ Forall (fun x => py_upper (nse_code x) <> u) l
  end.
Proof.
  induction l as [|x r IH]; simpl; [split; constructor|].
  destruct (String.eqb (py_upper (nse_code x)) u) eqn:E.
  - apply String.eqb_eq in E. exists [], x, r. repeat split; auto.
  - apply String.eqb_neq in E.
    destruct (find_and_rescore u r) as [r' [s|]].
    + destruct IH as [pre [s0 [post [Hr [Hp [Hs [Hq Hr']]]]]]].
      exists (x :: pre), s0, post. subst. repeat split; auto.
    + destruct IH as [-> Hf]. split; [reflexivity | constructor; assumption].
Qed.

(** [get_stock_by_nse_code] returns the first stock of [self.stocks] whose
    NSE code equals the code sought up to case, with its quality score
    recomputed, and stores the rescored stock in its place; it returns
    [None], leaving [self.stocks] unchanged, when no NSE code matches. *)
Theorem get_stock_by_nse_code_spec (csv_files : list CsvFile) (fallback : option CsvFile)
  (self_stocks : list QualityStock) (code : string) :
  let stocks := ensure_loaded csv_files fallback self_stocks in
  match get_stock_by_nse_code csv_files fallback self_stocks code with
  | (stocks', Some s) =>
      exists pre s0 post, stocks = (pre ++ s0 :: post)%list
                          /\ Forall (fun x => py_upper (nse_code x) <> py_upper code) pre
                          /\ py_upper (nse_code s0) = py_upper code
                          /\ s = set_score s0 (calculate_quality_score s0)
                          /\ stocks' = (pre ++ s :: post)%list
  | (stocks', None) =>
      stocks' = stocks /\ Forall (fun x => py_upper (nse_code x) <> py_upper code) stocks
  end.
Proof. apply find_and_rescore_spec. Qed.

End QSStats.

Module TSMore.
Import TS TSRun.

(** Any relation between states that every merged row and every file
    recorded as loaded respect is respected by whole loads, refreshes and
    reads. *)
Section Lift.
Variable R : Service -> Service -> Prop.
Hypothesis R_refl : forall st, R st st.
Hypothesis R_trans : forall a b c, R a b -> R b c -> R a c.
Hypothesis R_update : forall fname u st, R st (apply_update fname u st).
Hypothesis R_add : forall name st, R st (add_loaded name st).

Lemma process_rows_R (fname : string) (fns : list string) (rows : list RawRow) (st : Service) :
  R st (fst (process_rows fname fns rows st)).
Proof.
  revert st. induction rows as [|r rest IH]; intros st; simpl; [apply R_refl|].
  destruct (read_row fns r) as [[u|]|]; simpl; [| apply IH | apply R_refl].
  eapply R_trans; [apply R_update | apply IH].
Qed.

Lemma load_csv_file_R (f : CsvFile) (st : Service) : R st (fst (_load_csv_file f st)).
Proof.
  unfold _load_csv_file.
  destruct (contents f) as [[header records]|]; [|apply R_refl].
  pose proof (process_rows_R (file_name f) (map clean_key header)
                (reader_rows (map clean_key header) records) st) as H1.
  destruct (process_rows _ _ _ st) as [st1 raised1]. simpl in H1.
  destruct raised1; [eapply R_trans; [exact H1 | apply process_rows_R] | exact H1].
Qed.

Lemma load_all_files_R (force : bool) (files : list CsvFile) (st : Service) :
  R st (fst (load_all_files force files st)).
Proof.
  revert st. induction files as [|f rest IH]; intros st; simpl; [apply R_refl|].
  destruct (negb force && _); [apply IH|].
  pose proof (load_csv_file_R f st) as H1.
  destruct (_load_csv_file f st) as [st1 raised]. simpl in H1.
  destruct raised; [eapply R_trans; [exact H1 | apply IH]|].
  pose proof (IH (add_loaded (file_name f) st1)) as H2.
  destruct (load_all_files force rest _) as [st2 n]. simpl.
  eapply R_trans; [exact H1|]. eapply R_trans; [apply R_add | exact H2].
Qed.

Lemma exec_op_R (st : Service) (op : Op) : R st (exec_op st op).
Proof.
  destruct op as [force fs|fs|fs]; simpl.
  - apply load_all_files_R.
  - unfold refresh_data.
    pose proof (load_all_files_R true fs st) as H.
    destruct (load_all_files true fs st) as [st' n]. exact H.
  - destruct (loaded_files st); simpl; [apply load_all_files_R | apply R_refl].
Qed.

Lemma run_R (ops : list Op) (st : Service) : R st (run ops st).
Proof.
  unfold run. revert st. induction ops as [|op rest IH]; intros st; simpl; [apply R_refl|].
  eapply R_trans; [apply exec_op_R | apply IH].
Qed.

End Lift.

(** *** What a stored stock keeps *)

Lemma stock_kept_refl (s : TrendlyneStock) : stock_kept s s.
Proof. repeat split; auto using incl_refl. Qed.

Lemma stock_kept_trans (a b c : TrendlyneStock) :
  stock_kept a b -> stock_kept b c -> stock_kept a c.
Proof.
  intros [N1 [S1 [B1 [I1 [F1 D1]]]]] [N2 [S2 [B2 [I2 [F2 D2]]]]].
  repeat split.
  - congruence.
  - intros H. pose proof (S1 H) as E. rewrite <- E in H. rewrite (S2 H). exact E.
  - intros H. pose proof (B1 H) as E. rewrite <- E in H. rewrite (B2 H). exact E.
  - intros H. pose proof (I1 H) as E. rewrite <- E in H. rewrite (I2 H). exact E.
  - eapply incl_tran; eassumption.
  - intros j Hj. apply D2, D1, Hj.
Qed.

Lemma kept_refl (st : Service) : ts_kept st st.
Proof. split; [apply incl_refl|]. intros k s H. exists s. split; [exact H | apply stock_kept_refl]. Qed.

Lemma kept_trans (a b c : Service) : ts_kept a b -> ts_kept b c -> ts_kept a c.
Proof.
  intros [L1 H1] [L2 H2]. split; [eapply incl_tran; eassumption|].
  intros k s Hs. destruct (H1 k s Hs) as [s1 [Hs1 K1]]. destruct (H2 k s1 Hs1) as [s2 [Hs2 K2]].
  exists s2. split; [exact Hs2 | eapply stock_kept_trans; eassumption].
Qed.

Lemma dict_mem_update {V} (j : string) (d e : dict V) :
  dict_mem j d = true -> dict_mem j (dict_update d e) = true.
Proof.
  unfold dict_update. revert d.
  induction e as [|[k v] r IH]; intros d H; simpl; [exact H|].
  apply IH. apply dict_mem_set. exact H.
Qed.

Lemma kept_update (fname : string) (u : RowUpdate) (st : Service) :
  ts_kept st (apply_update fname u st).
Proof.
  split; [apply incl_refl|]. intros k s Hs. unfold apply_update. simpl.
  destruct (String.eqb k (u_key u)) eqn:E.
  - apply String.eqb_eq in E. subst k. rewrite Hs. rewrite dict_get_set_eq.
    eexists. split; [reflexivity|]. cbn.
    repeat split.
    + intros H. rewrite H. reflexivity.
    + intros H. rewrite H. reflexivity.
    + intros H. rewrite H. reflexivity.
    + destruct (existsb _ _); [apply incl_refl | apply incl_appl, incl_refl].
    + intros j Hj. apply dict_mem_update. exact Hj.
  - apply String.eqb_neq in E.
    destruct (dict_get (u_key u) (stocks st));
      rewrite dict_get_set_neq by exact E; exists s; split; [exact Hs | apply stock_kept_refl
                                                             | exact Hs | apply stock_kept_refl].
Qed.

Lemma kept_add (name : string) (st : Service) : ts_kept st (add_loaded name st).
Proof.
  split.
  - unfold add_loaded. simpl. destruct (existsb _ _); [apply incl_refl | apply incl_appl, incl_refl].
  - intros k s Hs. exists s. split; [exact Hs | apply stock_kept_refl].
Qed.

(** Once [_stocks] holds a stock under a key, every later sequence of
    loads, refreshes and reads keeps a stock under that key with the same
    name, the same non-empty NSE code, BSE code and ISIN, all of its source
    files and all of its [data] keys; no file leaves [_loaded_files]. *)
Theorem stored_stock_kept (ops : list Op) (st : Service) (k : string) (s : TrendlyneStock)
  (Hs : dict_get k (stocks st) = Some s) :
  incl (loaded_files st) (loaded_files (run ops st))
  /\ exists s', dict_get k (stocks (run ops st)) = Some s' /\ stock_kept s s'.
Proof.
  destruct (run_R ts_kept kept_refl kept_trans kept_update kept_add ops st) as [L H].
  split; [exact L | exact (H k s Hs)].
Qed.

Lemma stored_stock_kept_witness :
  dict_get "NSE:XX" (stocks sample_state) = Some sample_stock
  /\ exists s', dict_get "NSE:XX" (stocks (run [OpRefresh [Samples.other_file]] sample_state))
                = Some s' /\ stock_kept sample_stock s'.
Proof.
  assert (H : dict_get "NSE:XX" (stocks sample_state) = Some sample_stock) by (vm_compute; reflexivity).
  split; [exact H|].
  exact (proj2 (stored_stock_kept [OpRefresh [Samples.other_file]] sample_state _ _ H)).
Defined.

(** *** The shape of the state *)

Lemma NoDup_snoc {A} (l : list A) (x : A) : NoDup l -> ~ In x l -> NoDup (l ++ [x]).
Proof.
  intros H Hx. apply NoDup_app; [exact H | repeat constructor; intros [] | ].
  intros y Hy [<-|[]]. contradiction.
Qed.

Lemma wf_update (fname : string) (u : RowUpdate) (st : Service) :
  ts_wf st -> ts_wf (apply_update fname u st).
Proof.
  intros Hs. unfold ts_wf, apply_update. cbn [stocks loaded_files clock].
  intros k s Hin.
  destruct (dict_get (u_key u) (stocks st)) as [e|] eqn:Eg;
    apply In_dict_set in Hin as [Hin|Hin];
    try (destruct (Hs _ _ Hin) as [N1 [N2 [t [Ht Hlt]]]];
         split; [exact N1|]; split; [exact N2|]; exists t; split; [exact Ht | lia]);
    injection Hin as -> ->; cbn [source_files last_updated].
  - destruct (Hs _ _ (dict_get_In _ _ _ Eg)) as [N1 [N2 _]].
    destruct (existsb (String.eqb fname) (source_files e)) eqn:Ex.
    + split; [exact N1|]. split; [exact N2|]. exists (clock st). split; [reflexivity | lia].
    + split; [destruct (source_files e); discriminate|].
      split; [apply NoDup_snoc; [exact N2|]|].
      { intros Hin. apply (existsb_eqb_In fname) in Hin. congruence. }
      exists (clock st). split; [reflexivity | lia].
  - split; [discriminate|]. split; [repeat constructor; intros []|].
    exists (clock st). split; [reflexivity | lia].
Qed.

Lemma wf_add (name : string) (st : Service) : ts_wf st -> ts_wf (add_loaded name st).
Proof. intros Hs. exact Hs. Qed.

(** Starting from the fresh service, after any sequence of loads,
    refreshes and reads, every stored stock has a non-empty list of
    distinct source files and a [last_updated] time taken before the
    current one. *)
Theorem service_wf (ops : list Op) : ts_wf (run ops init).
Proof.
  apply (run_R (fun a b => ts_wf a -> ts_wf b)); auto using wf_update, wf_add.
  intros k s [].
Qed.

(** *** [refresh_data] never reports fewer stocks *)

Lemma dict_set_length {V} (k : string) (v : V) (d : dict V) :
  (length d <= length (dict_set k v d))%nat.
Proof.
  induction d as [|[k' v'] r IH]; simpl; [lia|].
  destruct (String.eqb k k'); simpl; lia.
Qed.

(** The counts [refresh_data] reports never decrease: [stocks_after] is at
    least [stocks_before] and [stocks_added] is never negative. *)
Theorem refresh_never_shrinks (csv_files : list CsvFile) (st : Service) :
  let '(st', r) := refresh_data csv_files st in
  (stocks_before r <= stocks_after r)%nat /\ (0 <= stocks_added r)%Z.
Proof.
  unfold refresh_data.
  pose proof (load_all_files_R (fun a b => length (stocks a) <= length (stocks b))%nat
                ltac:(intros; cbv beta; lia) ltac:(intros; cbv beta in *; lia)
                ltac:(intros fname u st0; cbv beta; unfold apply_update; cbn [stocks];
                      destruct (dict_get _ _); apply dict_set_length)
                ltac:(intros; cbv beta; unfold add_loaded; cbn [stocks]; lia)
                true csv_files st) as H.
  destruct (load_all_files true csv_files st) as [st' n]. cbn in H |- *. lia.
Qed.

End TSMore.

Module TSLookup.
Import TS.

Lemma find_split {A} (p : A -> bool) (l : list A) (x : A) :
  find p l = Some x ->
  exists pre post, l = (pre ++ x :: post)%list /\ (forall y, In y pre -> p y = false) /\ p x = true.
Proof.
  induction l as [|a r IH]; simpl; [discriminate|].
  destruct (p a) eqn:E.
  - intros H. injection H as <-. exists [], r. simpl. split; [reflexivity|]. split; [intros y []|exact E].
  - intros H. destruct (IH H) as [pre [post [-> [Hp Hx]]]].
    exists (a :: pre), post. split; [reflexivity|]. split; [|exact Hx].
    intros y [<-|Hy]; [exact E | exact (Hp y Hy)].
Qed.

Lemma code_matches_true (code : option string) (u : string) :
  code_matches code u = true <-> exists c, code = Some c /\ c <> "" /\ py_upper c = u.
Proof.
  unfold code_matches. destruct code as [c|]; split.
  - intros H. apply andb_true_iff in H as [H1 H2]. apply negb_true_iff, String.eqb_neq in H1.
    apply String.eqb_eq in H2. exists c. repeat split; assumption.
  - intros [c' [Hc [Hne Hu]]]. injection Hc as <-. apply andb_true_iff.
    split; [apply negb_true_iff, String.eqb_neq; exact Hne | apply String.eqb_eq; exact Hu].
  - discriminate.
  - intros [c' [Hc _]]. discriminate.
Qed.

(** [get_stock_by_nse_code], [get_stock_by_bse_code] and
    [get_stock_by_isin] (here for any of the three fields [code_of]) first
    load the files if none is loaded, as [get_all_stocks] does; they return
    the first stored stock whose code is non-empty and equal to the code
    sought up to case, and [None] exactly when no stored stock has such a
    code. *)
Theorem get_stock_by_spec (code_of : TrendlyneStock -> option string)
  (csv_files : list CsvFile) (code : string) (st : Service) :
  let '(st', r) := get_stock_by code_of csv_files code st in
  st' = fst (get_all_stocks csv_files st)
  /\ match r with
     | Some s =>
         exists pre post, map snd (stocks st') = (pre ++ s :: post)%list
           /\ (forall y c, In y pre -> code_of y = Some c -> c = "" \/ py_upper c <> py_upper code)
           /\ exists c, code_of s = Some c /\ c <> "" /\ py_upper c = py_upper code
     | None =>
         forall y c, In y (map snd (stocks st')) -> code_of y = Some c ->
                     c = "" \/ py_upper c <> py_upper code
     end.
Proof.
  unfold get_stock_by, get_all_stocks. cbv beta iota zeta.
  set (st' := match loaded_files st with
              | [] => fst (load_all_files false csv_files st)
              | _ :: _ => st end).
  split; [reflexivity|].
  assert (Nm : forall y c, code_matches (code_of y) (py_upper code) = false ->
                           code_of y = Some c -> c = "" \/ py_upper c <> py_upper code).
  { intros y c Hf Hc. destruct (String.eqb c "") eqn:E; [left; apply String.eqb_eq; exact E|].
    right. intros Hu. assert (Ht : code_matches (code_of y) (py_upper code) = true)
      by (apply code_matches_true; exists c; split; [exact Hc|]; split;
          [apply String.eqb_neq; exact E | exact Hu]).
    congruence. }
  destruct (find _ (map snd (stocks st'))) as [s|] eqn:Ef.
  - destruct (find_split _ _ _ Ef) as [pre [post [Hl [Hp Hs]]]].
    exists pre, post. split; [exact Hl|]. split.
    + intros y c Hy Hc. exact (Nm y c (Hp y Hy) Hc).
    + apply code_matches_true. exact Hs.
  - intros y c Hy Hc. exact (Nm y c (find_none _ _ Ef y Hy) Hc).
Qed.

Lemma map_string_empty (f : ascii -> ascii) (s : string) : map_string f s = "" -> s = "".
Proof. destruct s; simpl; [reflexivity | discriminate]. Qed.

(** The lookups never find anything for the empty code. *)
Theorem get_stock_by_empty (code_of : TrendlyneStock -> option string)
  (csv_files : list CsvFile) (st : Service) :
  snd (get_stock_by code_of csv_files "" st) = None.
Proof.
  unfold get_stock_by, get_all_stocks. cbv beta iota zeta. simpl snd.
  destruct (find _ _) as [y|] eqn:Ef; [exfalso|reflexivity].
  apply find_some in Ef as [_ Hy]. apply code_matches_true in Hy as [c [_ [Hne Hu]]].
  apply Hne. apply (map_string_empty upper_ascii). exact Hu.
Qed.

Lemma str_contains_empty (hay : string) : str_contains "" hay = true.
Proof. destruct hay; reflexivity. Qed.

(** [search_by_name] with the empty query returns every stock, as
    [get_all_stocks] does, and reaches the same state. *)
Theorem search_by_name_spec (csv_files : list CsvFile) (st : Service) :
  search_by_name csv_files "" st = get_all_stocks csv_files st.
Proof.
  unfold search_by_name, get_all_stocks. cbv beta iota zeta.
  f_equal. induction (map snd _) as [|x r IH]; [reflexivity|].
  simpl. rewrite str_contains_empty, IH. reflexivity.
Qed.

End TSLookup.

Module TQCriteria.
Import TS TQ.

Lemma positive_quarters_two (s : TrendlyneStock) (p t : bool) :
  _check_positive_quarters s = (p, t) -> t = true -> p = true.
Proof.
  unfold _check_positive_quarters. intros H Ht.
  destruct (gtc _ 0), (gtc _ 0); injection H as <- <-; simpl in *; congruence.
Qed.

Lemma great_entry_criteria (s : TrendlyneStock) (q : QualityFilteredStock) :
  great_entry s = Some q ->
  forall name b, In (name, b) (passed_criteria q) -> name <> "valuation" -> b = true.
Proof.
  intros H. unfold great_entry in H.
  destruct (_check_positive_quarters s) as [pq tq].
  destruct (_check_valuation s) as [[[pe peg] pb] ev]. cbv zeta in H.
  match type of H with (if ?c then _ else _) = _ => destruct c eqn:E; [|discriminate] end.
  injection H as <-. repeat rewrite andb_true_iff in E.
  repeat match type of E with _ /\ _ => let E1 := fresh "E" in destruct E as [E E1]; rewrite ?E1 end.
  rewrite ?E. cbn [passed_criteria criteria].
  intros name b Hin Hne.
  repeat (destruct Hin as [Hin|Hin]; [injection Hin as <- <-; first [reflexivity | assumption | congruence] |]).
  destruct Hin.
Qed.

(** The number of the first six entries of [passed_criteria] (roe, roce,
    debt_equity, interest_coverage, current_ratio, promoter_holding) that
    are true. *)
Lemma medium_entry_criteria (s : TrendlyneStock) (q : QualityFilteredStock) :
  medium_entry s = Some q ->
  In ("positive_quarters", true) (passed_criteria q)
  /\ (4 <= length (filter snd (firstn 6 (passed_criteria q))))%nat.
Proof.
  intros H. unfold medium_entry in H.
  destruct (_check_positive_quarters s) as [pq tq] eqn:Epq.
  pose proof (positive_quarters_two s pq tq Epq) as Hpt.
  destruct (_check_valuation s) as [[[pe peg] pb] ev]. cbv zeta in H.
  destruct tq; [specialize (Hpt eq_refl); subst pq|]; [|destruct pq];
  repeat match type of H with
         | context [gtc (?f (core_values s)) ?y] => destruct (gtc (f (core_values s)) y)
         | context [ltc (?f (core_values s)) ?y] => destruct (ltc (f (core_values s)) y)
         | context [_check_promoter_holding_stable s] => destruct (_check_promoter_holding_stable s)
         end; cbn [Nat.b2n Nat.add Nat.leb andb orb] in H;
  try match type of H with (if ?c then _ else _) = _ => destruct c end;
  try discriminate; injection H as <-; cbn;
  (split; [right; right; right; right; right; right; left; reflexivity | lia]).
Qed.

(** Every stock [filter_great_quality_stocks] returns has passed every
    criterion of its [passed_criteria] but, possibly, the valuation one;
    every stock [filter_medium_quality_stocks] returns has passed the
    positive-quarters criterion and at least four of the six core criteria
    (roe, roce, debt_equity, interest_coverage, current_ratio,
    promoter_holding). *)
Theorem tier_criteria (csv_files : list CsvFile) (st : Service) :
  (forall q, In q (snd (filter_great_quality_stocks csv_files st)) ->
             forall name b, In (name, b) (passed_criteria q) -> name <> "valuation" -> b = true)
  /\ (forall q, In q (snd (filter_medium_quality_stocks csv_files st)) ->
                In ("positive_quarters", true) (passed_criteria q)
                /\ (4 <= length (filter snd (firstn 6 (passed_criteria q))))%nat).
Proof.
  split.
  - intros q Hq. unfold filter_great_quality_stocks in Hq.
    destruct (get_all_stocks csv_files st) as [st1 l]. simpl in Hq.
    apply sort_desc_In, TQFacts.filter_map_In in Hq as [s [_ Hs]].
    exact (great_entry_criteria s q Hs).
  - intros q Hq. unfold filter_medium_quality_stocks in Hq.
    destruct (get_all_stocks csv_files st) as [st1 l].
    destruct (filter_great_quality_stocks csv_files st1) as [st2 g]. simpl in Hq.
    apply sort_desc_In, TQFacts.filter_map_In in Hq as [s [_ Hs]].
    destruct (key_in _ _); [discriminate|].
    exact (medium_entry_criteria s q Hs).
Qed.

End TQCriteria.
